(* ===== verification/_CoqProject ===== *)
-Q . S2P
Prelude.v
Sdk.v
Prog.v
Gin.v
Lambda.v
ApiGateway.v
Sqs.v
Sns.v
S3.v
DynamoDB.v
Routes.v
LambdaFunction.v
Concurrency.v
Emulator.v
EndToEnd.v
