(* ===== verification/Prelude.v ===== *)
(** * A verification development of the localstack demo gateway

    The program (src/, Go) is an HTTP gateway built on gin whose handlers
    drive a LocalStack cloud emulator through the AWS SDK.  Its parts:

    - [src/main.go], [src/config/aws_config.go]: load the SDK configuration
      (fixed endpoint http://localhost:4566, region sa-east-1, test
      credentials), then register the routes and serve on port 6000.
    - [src/routes/routes.go]: the route table, one handler per route.
    - [src/controllers/*_controller.go]: one controller per service.  Each
      handler first runs a lazy "ensure the resource exists" guard, then the
      request's own SDK calls, then writes one JSON response:
        S3 ([setupBucket], classification of "already owned" errors),
        SQS and SNS (the queue URL / topic ARN cached in a controller field
        after a successful setup), DynamoDB ([setupTable]: describe, create,
        wait), Lambda ([InvokeFunction]: a five-attempt readiness poll
        before the invocation), API Gateway ([CreateAPI]: an eight-call
        build chain aborting at the first failure).
    - [src/lambda/main.go]: the function deployed to the emulator.

    The controllers share nothing but the emulator behind the SDK, and the
    SQS and SNS controllers keep mutable fields that concurrent requests
    (gin serves each request on its own goroutine) read and write.

    ** How the development models it

    - [Prelude] (this file): Go's [(value, error)] results as [result],
      [fmt.Errorf] wrapping, shared lemmas, the [localstack] hint database.
    - [Sdk]: every SDK (and OS) call the program makes, as one constructor of
      [call], with the type of its reply [reply_of c]; the emulator is any
      instance of the class [Backend] (a state and a reply function).
    - [Prog]: a handler is a finite program tree [prog] whose nodes are SDK
      calls, loads and stores of controller fields, and Go panics.  [run]
      interprets it sequentially against a backend and returns the outcome,
      the controller fields and the log of (call, reply) events.  Two
      syntactic judgements on trees, [footprint] (no call of a kind, no
      write to a field) and [calls_le] (at most n calls of a kind), give
      facts that hold for every backend and every interleaving.
    - [Gin]: the part of gin the handlers use: JSON request binding with
      [binding:"required"], path parameters, form files, JSON responses,
      the recovery of panics as a bare 500.
    - [Lambda], [ApiGateway], [Sqs], [Sns], [S3], [DynamoDB]: one file per
      controller, each handler written as a [prog] that follows the Go code
      line by line ([InvokeFunction], [CreateAPI], [SendMessageHandler],
      [setupTopic], [UploadFile], [UpdateUser], ...).
    - [Routes]: [SetupRoutes] as a route table, gin's matching of method and
      path (with [:name] parameters), [serve], [GetAWSConfig] and [main].
    - [LambdaFunction]: [HandleRequest] of the deployed function (a
      definition only: it is one string concatenation).
    - [Concurrency]: the request goroutines sharing the controllers, as a
      step relation on configurations (threads, fields, backend, log) that
      interleaves the primitive actions of the handlers; [run_steps] shows
      a thread run alone steps exactly as [run] computes.
    - [Emulator]: one concrete [Backend], a model of LocalStack's S3, SQS
      and SNS (queues and topics idempotent by name, received messages
      invisible until deleted).  It models the environment, not the code.
    - [EndToEnd]: requests served one after the other through the router
      against that emulator ([serve_all]).

    ** What is proved

    - readiness polling ([Lambda]): the Go loop refines an abstract bounded
      poller ([Poller.poll_spec]); never more than five GetFunction calls;
      the function is invoked only after an "Active" answer; a timeout never
      invokes and costs five sleeps;
    - the build chain ([ApiGateway]): the calls issued are exactly the prefix
      of the eight-step chain ([Plan.exec_plan]) up to the first failure, in
      order; every request builds a new API;
    - lazy setup guards ([Sqs], [Sns], [S3], [DynamoDB]): cache hits issue
      no creation call, failures leave the cache empty, the SNS guard
      caches the topic before its default subscription exists, S3 creates
      the bucket on every request, [setupTable] on every branch;
    - failure classification ([S3]): only the exact message
      "BucketAlreadyOwnedByYou" is treated as success;
    - item decoding ([DynamoDB]): a stored item lacking an attribute makes
      [UpdateUser] and [ListUsers] panic; [user_of_item] inverts
      [user_item]; [CreateUser] answers with exactly the user it stored;
    - the other handlers: [ReceiveMessage] deletes a message before it
      returns its body; [ListAPIs] and [ListFunctions] on every branch;
    - routing ([Routes]): no route reaches the DynamoDB handlers; a routed
      [InvokeFunction] request always has a name;
    - concurrency ([Concurrency]): two concurrent first requests can both
      call CreateQueue (the guard is an unlocked check-then-act), yet no
      interleaving makes more than one CreateQueue per SQS request, and in
      every interleaving the queue and topic names stay fixed, so every
      creation call is for "demo-queue" or "demo-topic".  The invariants
      are proved by induction on the reflexive-transitive closure of the
      step relation;
    - end to end ([EndToEnd]): on the emulator, a message sent through
      [/sqs/send] is returned by the next [/sqs/receive], which empties
      the queue.

    No fuel is needed: every loop of the program is bounded by a constant
    (the five polls) or by a list (the scans), so [prog] trees are finite
    and [run] is structural.  The step relation needs no bound either: a
    configuration has finitely many finite threads, and the invariants hold
    of every reachable configuration.

    Not modelled: the gin router's HTTP framing, the SDK's wire protocol and
    the emulator itself (abstracted by [Backend]: every theorem outside
    [EndToEnd] holds for every backend), the Lambda runtime, logging, and Go's weak memory model (the interleavings
    are sequentially consistent, a subset of the executions Go allows for
    these unsynchronised accesses, so the race shown is a real one).
*)

From stdpp Require Export base list strings.
From Stdlib Require Export ZArith.

Declare Scope localstack_scope.
Delimit Scope localstack_scope with ls.
Open Scope string_scope.
Open Scope list_scope.

Create HintDb localstack.
Create Rewrite HintDb localstack_rw.

(** ** Go results

    A Go call returning [(v, err)] is modelled by [result A]: [Ok v] when
    [err == nil], [Err msg] when [err != nil], [msg] being [err.Error()]. *)

Inductive result (A : Type) : Type :=
| Ok (a : A)
| Err (msg : string).
Arguments Ok {A} a.
Arguments Err {A} msg.

#[export] Instance result_eq_dec {A} `{EqDecision A} : EqDecision (result A).
Proof. solve_decision. Defined.

Definition is_ok {A} (r : result A) : bool :=
  match r with Ok _ => true | Err _ => false end.

(** [fmt.Errorf(prefix + "%v", err)] and [fmt.Sprintf(prefix + "%v", err)]
    with a message argument: the prefix followed by [err.Error()]. *)
Definition errorf (prefix msg : string) : string := prefix +:+ msg.

Lemma errorf_inj prefix m1 m2 :
  errorf prefix m1 = errorf prefix m2 -> m1 = m2.
Proof.
  unfold errorf. induction prefix as [|c p IH]; simpl; [done|].
  intros H. injection H as H. auto.
Qed.

Lemma errorf_nonempty prefix msg : prefix <> "" -> errorf prefix msg <> "".
Proof. unfold errorf. intros H. destruct prefix; [done | cbn; discriminate]. Qed.

#[export] Hint Resolve errorf_nonempty : localstack.

(** ** Shared tactics *)

Ltac invc H := inversion H; subst; clear H.

(** Case analysis on the result of a call, naming the branch equation. *)
Ltac case_result r :=
  let E := fresh "Hr" in destruct r eqn:E.
