(* ===== verification/Sdk.v ===== *)
(** * The AWS SDK surface the controllers use

    Every call the Go code makes on an SDK client (and the two calls on the
    operating system, [os.ReadFile] and [time.Sleep], plus the clock and the
    UUID generator) is one constructor of [call]; [reply_of c] is the type
    of what the call returns to the code.  SDK outputs that the code
    dereferences ([*out.QueueUrl], [*out.TopicArn], ...) are pointers in Go
    and are [option string] here: [None] is a nil pointer.  Arguments built
    with [aws.String(...)] are never nil and are plain strings; pointers the
    code copies from one output into the next input stay [option string].

    The emulator is abstract: any [Backend] (a state type and a reply
    function) answers the calls.  Theorems about the controllers hold for
    every backend. *)

From S2P Require Import Prelude.

(** DynamoDB attribute values ([types.AttributeValue]); the code only
    writes and reads [AttributeValueMemberS]. *)
Inductive AttributeValue : Type :=
| AttributeValueMemberS (Value : string)
| AttributeValueMemberN (Value : string)
| AttributeValueMemberBOOL (Value : bool)
| AttributeValueMemberNULL.

#[export] Instance AttributeValue_eq_dec : EqDecision AttributeValue.
Proof. solve_decision. Defined.

(** An item, [map[string]types.AttributeValue], as an association list. *)
Abbreviation Item := (list (string * AttributeValue)).

(** [sqs types.Message]: the two pointer fields the code reads. *)
Record Message := { ReceiptHandle : option string; Body : option string }.

(** [sns types.Subscription]. *)
Record Subscription := {
  sub_Endpoint : option string;
  sub_Protocol : option string;
  sub_SubscriptionArn : option string }.

(** [lambda types.FunctionConfiguration], as listed by ListFunctions. *)
Record FunctionConfiguration := {
  fn_FunctionName : option string;
  fn_Description : option string;
  fn_FunctionArn : option string }.

(** [apigateway types.RestApi]. *)
Record RestApi := {
  api_Id : option string;
  api_Name : option string;
  api_Description : option string }.

(** [lambda.InvokeOutput]: status code (int32) and payload bytes. *)
Record InvokeOutput := { StatusCode : Z; Payload : string }.

(** [dynamodb.CreateTableInput] as built by [setupTable]. *)
Record CreateTableInput := {
  ct_TableName : string;
  ct_AttributeName : string;
  ct_AttributeType : string;
  ct_KeyAttributeName : string;
  ct_KeyType : string;
  ct_ReadCapacityUnits : Z;
  ct_WriteCapacityUnits : Z }.

(** [lambda.CreateFunctionInput] as built by [CreateFunction]. *)
Record CreateFunctionInput := {
  cf_FunctionName : string;
  cf_Description : string;
  cf_Runtime : string;
  cf_Handler : string;
  cf_Role : string;
  cf_ZipFile : string }.

#[export] Instance CreateTableInput_eq_dec : EqDecision CreateTableInput.
Proof. solve_decision. Defined.
#[export] Instance CreateFunctionInput_eq_dec : EqDecision CreateFunctionInput.
Proof. solve_decision. Defined.

Inductive call : Type :=
(* config.LoadDefaultConfig *)
| LoadDefaultConfig (region endpoint signing_region access_key secret_key : string)
(* s3.Client *)
| CreateBucket (bucket location_constraint : string)
| PutObject (bucket key body : string)
(* sqs.Client *)
| CreateQueue (queue_name : string)
| SendMessage (queue_url body : string)
| ReceiveMessage (queue_url : string) (max_messages wait_seconds : Z)
| DeleteMessage (queue_url : string) (receipt : option string)
(* sns.Client *)
| CreateTopic (name : string)
| Subscribe (topic_arn protocol endpoint : string)
| Publish (topic_arn message subject : string)
| ListSubscriptionsByTopic (topic_arn : string)
(* dynamodb.Client, its TableExists waiter, uuid.New, time.Now *)
| DescribeTable (table : string)
| CreateTable (input : CreateTableInput)
| WaitTableExists (table : string) (max_wait_seconds : Z)
| PutItem (table : string) (item : Item)
| GetItem (table : string) (key : Item)
| UpdateItem (table : string) (key : Item) (update_expression : string)
    (names : list (string * string)) (values : Item)
| DeleteItem (table : string) (key : Item)
| Scan (table : string)
| NewUUID
| Now
(* os.ReadFile, lambda.Client, time.Sleep *)
| ReadFile (path : string)
| CreateFunction (input : CreateFunctionInput)
| GetFunction (function_name : string)
| Sleep (seconds : Z)
| Invoke (function_name payload : string)
| ListFunctions
(* apigateway.Client *)
| CreateRestApi (name description : string)
| GetResources (api : option string)
| CreateResource (api parent : option string) (path_part : string)
| PutMethod (api resource : option string) (http_method authorization : string)
| PutIntegration (api resource : option string)
    (http_method integration_type integration_http_method uri : string)
| PutMethodResponse (api resource : option string) (http_method status : string)
    (response_models : list (string * string))
| PutIntegrationResponse (api resource : option string) (http_method status : string)
    (response_templates : list (string * string))
| CreateDeployment (api : option string) (stage : string)
| GetRestApis.

#[export] Instance call_eq_dec : EqDecision call.
Proof. solve_decision. Defined.

(** What each call returns to the code: [result T] for an SDK call
    [(out, err)], the bare value for calls that cannot fail. *)
Definition reply_of (c : call) : Type :=
  match c with
  | LoadDefaultConfig _ _ _ _ _ => result unit
  | CreateBucket _ _ | PutObject _ _ _ => result unit
  | CreateQueue _ => result (option string)
  | SendMessage _ _ | DeleteMessage _ _ => result unit
  | ReceiveMessage _ _ _ => result (list Message)
  | CreateTopic _ => result (option string)
  | Subscribe _ _ _ | Publish _ _ _ => result unit
  | ListSubscriptionsByTopic _ => result (list Subscription)
  | DescribeTable _ | CreateTable _ | WaitTableExists _ _ => result unit
  | PutItem _ _ | UpdateItem _ _ _ _ _ | DeleteItem _ _ => result unit
  | GetItem _ _ => result (option Item)
  | Scan _ => result (list Item)
  | NewUUID | Now => string
  | ReadFile _ => result string
  | CreateFunction _ => result (option string)
  (** [Some st]: [Configuration.State] is [st]; [None]: nil [Configuration]. *)
  | GetFunction _ => result (option string)
  | Sleep _ => unit
  | Invoke _ _ => result InvokeOutput
  | ListFunctions => result (list FunctionConfiguration)
  | CreateRestApi _ _ => result (option string)
  | GetResources _ => result (list (option string))
  | CreateResource _ _ _ => result (option string)
  | PutMethod _ _ _ _ | PutIntegration _ _ _ _ _ _ => result unit
  | PutMethodResponse _ _ _ _ _ | PutIntegrationResponse _ _ _ _ _ => result unit
  | CreateDeployment _ _ => result unit
  | GetRestApis => result (list RestApi)
  end.

(** The emulator behind the SDK: a state [W] and, for each call, the next
    state and the reply.  Nondeterminism of a real backend is expressed by
    putting an oracle in [W]. *)
Class Backend (W : Type) := backend_call : W -> forall c : call, W * reply_of c.

(** An event of the log: a call together with the reply the code got. *)
Definition event := { c : call & reply_of c }.
Notation "c ↦ r" := (existT (P := reply_of) c r) (at level 20) : localstack_scope.
Open Scope localstack_scope.

(** The calls of a log, forgetting the replies. *)
Definition calls_of (log : list event) : list call := map (@projT1 _ _) log.

Lemma calls_of_app l1 l2 : calls_of (l1 ++ l2) = calls_of l1 ++ calls_of l2.
Proof. apply map_app. Qed.

Lemma calls_of_cons e l : calls_of (e :: l) = projT1 e :: calls_of l.
Proof. reflexivity. Qed.

#[export] Hint Rewrite calls_of_app calls_of_cons : localstack_rw.

(** A backend given by a reply oracle indexed by the number of calls
    answered so far; every deterministic emulator is of this form, and
    the concrete scenarios below use it to script the emulator. *)
Definition oracle_backend (o : nat -> forall c : call, reply_of c) : Backend nat :=
  fun n c => (S n, o n c).

(** How many calls of a log satisfy [p]. *)
Definition count_calls (p : call -> bool) (log : list event) : nat :=
  length (List.filter p (calls_of log)).

Lemma count_calls_app p l1 l2 :
  count_calls p (l1 ++ l2) = count_calls p l1 + count_calls p l2.
Proof. unfold count_calls. rewrite calls_of_app, List.filter_app. apply length_app. Qed.

Lemma count_calls_cons p e l :
  count_calls p (e :: l) = (if p (projT1 e) then 1 else 0) + count_calls p l.
Proof. unfold count_calls. simpl. by destruct (p (projT1 e)). Qed.

#[export] Hint Rewrite count_calls_app count_calls_cons : localstack_rw.

(** A reply for every call: the one scripted backends give to the calls a
    scenario does not care about. *)
Definition default_reply (c : call) : reply_of c :=
  match c as c0 return reply_of c0 with
  | NewUUID | Now => ""
  | Sleep _ => tt
  | LoadDefaultConfig _ _ _ _ _ | CreateBucket _ _ | PutObject _ _ _
  | SendMessage _ _ | DeleteMessage _ _ | Subscribe _ _ _ | Publish _ _ _
  | DescribeTable _ | CreateTable _ | WaitTableExists _ _ | PutItem _ _
  | UpdateItem _ _ _ _ _ | DeleteItem _ _ | PutMethod _ _ _ _
  | PutIntegration _ _ _ _ _ _ | PutMethodResponse _ _ _ _ _
  | PutIntegrationResponse _ _ _ _ _ | CreateDeployment _ _ => Ok tt
  | CreateQueue _ | CreateTopic _ | CreateFunction _ | GetFunction _
  | CreateRestApi _ _ | CreateResource _ _ _ => Ok None
  | ReceiveMessage _ _ _ | ListSubscriptionsByTopic _ | Scan _ | ListFunctions
  | GetResources _ | GetRestApis => Ok []
  | GetItem _ _ => Ok None
  | ReadFile _ => Ok ""
  | Invoke _ _ => Ok {| StatusCode := 200; Payload := "" |}
  end.
