(* ===== verification/Prog.v ===== *)
(** * Handlers as programs over SDK calls and controller fields

    A Go handler is modelled as a finite tree [prog R]: it returns, calls
    the SDK and continues with the reply, reads or writes a field of a
    controller struct, or panics.  The trees are finite because every loop
    of the program has a constant bound.  [run] executes a tree against a
    [Backend], threading the controller fields ([Heap]) and collecting the
    log of (call, reply) events in the order the calls are made. *)

From S2P Require Import Prelude Sdk.

(** The mutable state of the controllers: the struct fields that handlers
    read ([s.queueURL], [s.queueName], ...) and write ([s.queueURL = ...]).
    The S3, DynamoDB, Lambda and API Gateway controllers hold only their
    client. *)
Record SQSController := { sqs_queueURL : string; sqs_queueName : string }.
Record SNSController := { sns_topicARN : string; sns_topicName : string }.
Record Heap := { h_sqs : SQSController; h_sns : SNSController }.

Inductive field : Type := QueueURL | QueueName | TopicARN | TopicName.

#[export] Instance field_eq_dec : EqDecision field.
Proof. solve_decision. Defined.

Definition load (f : field) (h : Heap) : string :=
  match f with
  | QueueURL => sqs_queueURL (h_sqs h)
  | QueueName => sqs_queueName (h_sqs h)
  | TopicARN => sns_topicARN (h_sns h)
  | TopicName => sns_topicName (h_sns h)
  end.

Definition store (f : field) (v : string) (h : Heap) : Heap :=
  match f with
  | QueueURL =>
      {| h_sqs := {| sqs_queueURL := v; sqs_queueName := sqs_queueName (h_sqs h) |};
         h_sns := h_sns h |}
  | QueueName =>
      {| h_sqs := {| sqs_queueURL := sqs_queueURL (h_sqs h); sqs_queueName := v |};
         h_sns := h_sns h |}
  | TopicARN =>
      {| h_sqs := h_sqs h;
         h_sns := {| sns_topicARN := v; sns_topicName := sns_topicName (h_sns h) |} |}
  | TopicName =>
      {| h_sqs := h_sqs h;
         h_sns := {| sns_topicARN := sns_topicARN (h_sns h); sns_topicName := v |} |}
  end.

Lemma load_store_eq f v h : load f (store f v h) = v.
Proof. by destruct f. Qed.

Lemma load_store_ne f g v h : f <> g -> load g (store f v h) = load g h.
Proof. intros Hne. destruct f, g; simpl; congruence. Qed.

#[export] Hint Rewrite load_store_eq : localstack_rw.

Inductive prog (R : Type) : Type :=
| Ret (r : R)
| Call (c : call) (k : reply_of c -> prog R)
| Load (f : field) (k : string -> prog R)
| Store (f : field) (v : string) (k : prog R)
| Panic (msg : string).
Arguments Ret {R} r.
Arguments Call {R} c k.
Arguments Load {R} f k.
Arguments Store {R} f v k.
Arguments Panic {R} msg.

Fixpoint bind {R S} (p : prog R) (f : R -> prog S) : prog S :=
  match p with
  | Ret r => f r
  | Call c k => Call c (fun x => bind (k x) f)
  | Load fl k => Load fl (fun x => bind (k x) f)
  | Store fl v k => Store fl v (bind k f)
  | Panic m => Panic m
  end.

Notation "x <- p ;; q" := (bind p (fun x => q))
  (at level 100, p at next level, right associativity) : localstack_scope.

(** Primitive programs: one call, one field access. *)
Definition sdk (c : call) : prog (reply_of c) := Call c Ret.
Definition read_field (f : field) : prog string := Load f Ret.
Definition write_field (f : field) (v : string) : prog unit := Store f v (Ret tt).

(** Go runtime panics the handlers can raise. *)
Definition nil_deref_panic : string :=
  "runtime error: invalid memory address or nil pointer dereference".

(** [*p] for a pointer [p] taken from an SDK output. *)
Definition deref (p : option string) : prog string :=
  match p with Some s => Ret s | None => Panic nil_deref_panic end.

(** ** Sequential execution *)

Inductive outcome (R : Type) : Type :=
| Done (r : R)
| Panicked (msg : string).
Arguments Done {R} r.
Arguments Panicked {R} msg.

(** What a run leaves: the outcome, the fields, the backend state and the
    log of the calls made, first call first. *)
Record final (W R : Type) := mkFinal {
  f_out : outcome R; f_heap : Heap; f_world : W; f_log : list event }.
Arguments mkFinal {W R} f_out f_heap f_world f_log.
Arguments f_out {W R} _.
Arguments f_heap {W R} _.
Arguments f_world {W R} _.
Arguments f_log {W R} _.

Section Run.
Context {W : Type} `{Backend W}.

Fixpoint run {R} (p : prog R) (h : Heap) (w : W) : final W R :=
  match p with
  | Ret r => mkFinal (Done r) h w []
  | Call c k =>
      let '(w1, x) := backend_call w c in
      let fr := run (k x) h w1 in
      mkFinal (f_out fr) (f_heap fr) (f_world fr) ((c ↦ x) :: f_log fr)
  | Load f k => run (k (load f h)) h w
  | Store f v k => run k (store f v h) w
  | Panic m => mkFinal (Panicked m) h w []
  end.

(** Running [p] then [f]: the logs are concatenated, a panic stops. *)
Definition run_then {R S} (fp : final W R) (f : R -> prog S) : final W S :=
  match f_out fp with
  | Done x =>
      let ff := run (f x) (f_heap fp) (f_world fp) in
      mkFinal (f_out ff) (f_heap ff) (f_world ff) (f_log fp ++ f_log ff)
  | Panicked m => mkFinal (Panicked m) (f_heap fp) (f_world fp) (f_log fp)
  end.

Lemma run_bind {R S} (p : prog R) (f : R -> prog S) h w :
  run (bind p f) h w = run_then (run p h w) f.
Proof.
  revert h w. induction p as [r|c k IH|fl k IH|fl v k IH|m]; intros h w;
    simpl; unfold run_then; simpl.
  - destruct (run (f r) h w); reflexivity.
  - destruct (backend_call w c) as [w1 x]. rewrite IH. unfold run_then.
    destruct (f_out (run (k x) h w1)); reflexivity.
  - apply IH.
  - apply IH.
  - reflexivity.
Qed.

Lemma run_sdk c h w :
  run (sdk c) h w =
    mkFinal (Done (snd (backend_call w c))) h (fst (backend_call w c))
      [c ↦ snd (backend_call w c)].
Proof. unfold sdk. simpl. by destruct (backend_call w c). Qed.
End Run.

#[export] Hint Rewrite @run_bind @run_sdk : localstack_rw.

(** A [for _, x := range l { out = append(out, f(x)) }] loop. *)
Fixpoint mapM {A B} (f : A -> prog B) (l : list A) : prog (list B) :=
  match l with
  | [] => Ret []
  | x :: rest => y <- f x ;; ys <- mapM f rest ;; Ret (y :: ys)
  end.

(** ** Footprints

    [footprint bad guarded p]: [p] never makes a call satisfying [bad] and
    never writes a field satisfying [guarded].  It is proved syntactically
    ([solve_footprint]) and gives, for every backend, that a run of [p]
    logs no such call and leaves such fields as they were. *)
Inductive footprint {R} (bad : call -> bool) (guarded : field -> bool) : prog R -> Prop :=
| fp_ret r : footprint bad guarded (Ret r)
| fp_call c k :
    bad c = false -> (forall x, footprint bad guarded (k x)) ->
    footprint bad guarded (Call c k)
| fp_load f k : (forall v, footprint bad guarded (k v)) -> footprint bad guarded (Load f k)
| fp_store f v k :
    guarded f = false -> footprint bad guarded k -> footprint bad guarded (Store f v k)
| fp_panic m : footprint bad guarded (Panic m).

Lemma footprint_bind {R S} bad guarded (p : prog R) (f : R -> prog S) :
  footprint bad guarded p -> (forall x, footprint bad guarded (f x)) ->
  footprint bad guarded (bind p f).
Proof. intros Hp Hf. induction Hp; simpl; [auto|constructor; auto..]. Qed.

Lemma footprint_mapM {A B} bad guarded (f : A -> prog B) (l : list A) :
  (forall x, footprint bad guarded (f x)) -> footprint bad guarded (mapM f l).
Proof.
  intros Hf. induction l as [|x l IH]; simpl; [constructor|].
  apply footprint_bind; [auto|]. intros y. apply footprint_bind; [auto|]. constructor.
Qed.

Section Footprint.
Context {W : Type} `{Backend W}.

Lemma footprint_run {R} bad guarded (p : prog R) h w :
  footprint bad guarded p ->
  count_calls bad (f_log (run p h w)) = 0 /\
  (forall f, guarded f = true -> load f (f_heap (run p h w)) = load f h).
Proof.
  intros Hp. revert h w. induction Hp as [r|c k Hc Hk IH|f k Hk IH|f v k Hf Hk IH|m];
    intros h w; simpl; auto.
  - destruct (backend_call w c) as [w1 x]. simpl.
    destruct (IH x h w1) as [Hn Hl]. rewrite count_calls_cons. simpl. rewrite Hc. auto.
  - destruct (IH (store f v h) w) as [Hn Hl]. split; [done|].
    intros g Hg. rewrite Hl by done. apply load_store_ne. congruence.
Qed.
Lemma footprint_no_calls {R} bad guarded (p : prog R) h w :
  footprint bad guarded p -> count_calls bad (f_log (run p h w)) = 0.
Proof. intros Hp. exact (proj1 (footprint_run bad guarded p h w Hp)). Qed.
End Footprint.

(** Proves a footprint by following the program's structure. *)
Ltac solve_footprint :=
  repeat first
    [ apply footprint_bind
    | apply footprint_mapM
    | apply fp_ret | apply fp_panic
    | apply fp_call; [done|]
    | apply fp_load
    | apply fp_store; [done|]
    | progress intros
    | progress case_match
    | progress (unfold sdk, read_field, write_field, deref) ].

(** Inversion of [footprint] on each kind of node; the continuation of a
    call is recovered with the decidable equality of calls (no axiom). *)
Lemma footprint_call_inv {R} bad guarded c (k : reply_of c -> prog R) :
  footprint bad guarded (Call c k) -> bad c = false /\ forall x, footprint bad guarded (k x).
Proof.
  intros Hf. inversion Hf as [|c0 k1 Hc Hk Ec| | |].
  match goal with E : existT _ _ = existT _ _ |- _ =>
    apply (Eqdep_dec.inj_pair2_eq_dec _ call_eq_dec) in E end.
  subst. auto.
Qed.

Lemma footprint_load_inv {R} bad guarded f (k : string -> prog R) :
  footprint bad guarded (Load f k) -> forall v, footprint bad guarded (k v).
Proof. intros Hf. by inversion Hf. Qed.

Lemma footprint_store_inv {R} bad guarded f v (k : prog R) :
  footprint bad guarded (Store f v k) -> guarded f = false /\ footprint bad guarded k.
Proof. intros Hf. by inversion Hf. Qed.

(** ** Call budgets

    [calls_le bad n p]: every execution of [p] makes at most [n] calls
    satisfying [bad], whatever the replies and the fields it reads.  Like
    [footprint] it is syntactic; it bounds the calls of a thread in every
    interleaving, not only in a sequential [run]. *)
Inductive calls_le {R} (bad : call -> bool) : nat -> prog R -> Prop :=
| cl_ret n r : calls_le bad n (Ret r)
| cl_panic n m : calls_le bad n (Panic m)
| cl_call n c k :
    bad c = false -> (forall x, calls_le bad n (k x)) -> calls_le bad n (Call c k)
| cl_bad n c k :
    bad c = true -> (forall x, calls_le bad n (k x)) -> calls_le bad (S n) (Call c k)
| cl_load n f k : (forall v, calls_le bad n (k v)) -> calls_le bad n (Load f k)
| cl_store n f v k : calls_le bad n k -> calls_le bad n (Store f v k).

#[export] Hint Constructors calls_le : localstack.

Lemma footprint_calls_le {R} bad guarded (p : prog R) n :
  footprint bad guarded p -> calls_le bad n p.
Proof. induction 1; eauto with localstack. Qed.

Lemma calls_le_mono {R} bad (p : prog R) n m :
  calls_le bad n p -> n <= m -> calls_le bad m p.
Proof.
  intros Hp. revert m. induction Hp; intros m' Hle; eauto with localstack.
  destruct m' as [|m']; [lia|]. apply cl_bad; auto with lia.
Qed.

Lemma calls_le_bind {R S} bad (p : prog R) (f : R -> prog S) n m :
  calls_le bad n p -> (forall x, calls_le bad m (f x)) -> calls_le bad (n + m) (bind p f).
Proof.
  intros Hp Hf. induction Hp; simpl; eauto with localstack.
  eapply calls_le_mono; [apply Hf|lia].
Qed.

(** What is left of the budget after one call. *)
Definition budget_after (bad : call -> bool) (c : call) (n : nat) : nat :=
  if bad c then n - 1 else n.

Lemma calls_le_call_inv {R} bad n c (k : reply_of c -> prog R) :
  calls_le bad n (Call c k) ->
  (bad c = true -> 0 < n) /\ forall x, calls_le bad (budget_after bad c n) (k x).
Proof.
  intros Hc. unfold budget_after.
  inversion Hc as [| |n0 c0 k0 Hb Hk E1|n0 c0 k0 Hb Hk E1| |]; subst;
    match goal with E : existT _ _ = existT _ _ |- _ =>
      apply (Eqdep_dec.inj_pair2_eq_dec _ call_eq_dec) in E end;
    subst; rewrite Hb; split; auto with lia.
  intros x. replace (S n0 - 1) with n0 by lia. auto.
Qed.

Lemma calls_le_load_inv {R} bad n f (k : string -> prog R) :
  calls_le bad n (Load f k) -> forall v, calls_le bad n (k v).
Proof. intros Hf. by inversion Hf. Qed.

Lemma calls_le_store_inv {R} bad n f v (k : prog R) :
  calls_le bad n (Store f v k) -> calls_le bad n k.
Proof. intros Hf. by inversion Hf. Qed.

Section Budget.
Context {W : Type} `{Backend W}.

Lemma calls_le_run {R} bad n (p : prog R) h w :
  calls_le bad n p -> count_calls bad (f_log (run p h w)) <= n.
Proof.
  intros Hp. revert h w.
  induction Hp as [n r|n m|n c k Hb Hk IH|n c k Hb Hk IH|n f k Hk IH|n f v k Hk IH];
    intros h w; simpl.
  1,2: unfold count_calls; simpl; lia.
  1,2: destruct (backend_call w c) as [w1 x]; simpl; rewrite count_calls_cons; simpl;
    rewrite Hb; specialize (IH x h w1); lia.
  all: apply IH.
Qed.
End Budget.

(** ** Call-free programs

    The code that turns SDK outputs into JSON (dereferences, type
    assertions, loops over the items) makes no call and touches no field.
    [eval_pure] computes the outcome of such a program; [collect] is the
    outcome of a loop over them: the first panic, or all the values. *)
Fixpoint eval_pure {R} (p : prog R) : option (outcome R) :=
  match p with
  | Ret r => Some (Done r)
  | Panic m => Some (Panicked m)
  | _ => None
  end.

Fixpoint collect {B} (os : list (outcome B)) : outcome (list B) :=
  match os with
  | [] => Done []
  | Done x :: rest => match collect rest with Done xs => Done (x :: xs) | Panicked m => Panicked m end
  | Panicked m :: _ => Panicked m
  end.

Section Pure.
Context {W : Type} `{Backend W}.

Lemma run_eval_pure {R} (p : prog R) o h w :
  eval_pure p = Some o -> run p h w = mkFinal o h w [].
Proof. destruct p; simpl; intros E; inversion E; reflexivity. Qed.

Lemma run_mapM_pure {A B} (f : A -> prog B) (o : A -> outcome B) l h w :
  (forall x, In x l -> eval_pure (f x) = Some (o x)) ->
  run (mapM f l) h w = mkFinal (collect (map o l)) h w [].
Proof.
  induction l as [|x l IH]; intros Hf; [reflexivity|]. simpl mapM.
  rewrite run_bind, (run_eval_pure _ (o x)) by (apply Hf; left; done).
  unfold run_then. simpl. destruct (o x) as [y|m]; simpl; [|reflexivity].
  rewrite run_bind, IH by (intros; apply Hf; right; done).
  unfold run_then. simpl. by destruct (collect (map o l)).
Qed.
End Pure.

Lemma collect_map_guard {A B} (P : A -> bool) (g : A -> B) m l :
  collect (map (fun x => if P x then Done (g x) else Panicked m) l) =
    if forallb P l then Done (map g l) else Panicked m.
Proof.
  induction l as [|x l IH]; [done|]. simpl. destruct (P x); simpl; [|done].
  rewrite IH. by destruct (forallb P l).
Qed.
