(* ===== verification/Gin.v ===== *)
(** * The part of gin the handlers use

    Requests carry a decoded JSON body, the path parameters of the route and
    an optional multipart file; [c.JSON(code, obj)] is a response with a
    status and a JSON value.  [ShouldBindJSON] decodes the body into a
    struct of string fields and applies the [binding:"required"] validator,
    which rejects a missing or empty string.  A handler is a [prog]
    returning its response; gin's Recovery middleware (installed by
    [gin.Default()]) turns a panic into a bare 500. *)

From S2P Require Import Prelude Sdk Prog.

Inductive json : Type :=
| JNull
| JBool (b : bool)
| JInt (z : Z)
| JStr (s : string)
| JArr (l : list json)
| JObj (kv : list (string * json)).

(** [gin.H{...}]. *)
Definition H (kv : list (string * json)) : json := JObj kv.

Record Response := { status : Z; body : option json }.

Definition StatusOK : Z := 200.
Definition StatusCreated : Z := 201.
Definition StatusBadRequest : Z := 400.
Definition StatusNotFound : Z := 404.
Definition StatusInternalServerError : Z := 500.

(** [c.JSON(code, obj); return]. *)
Definition JSON (code : Z) (obj : json) : prog Response :=
  Ret {| status := code; body := Some obj |}.

(** [c.FormFile("file")]: the file header; [fh_open] is what [file.Open()]
    followed by reading the body yields. *)
Record FileHeader := { Filename : string; fh_open : result string }.

Record Request := {
  req_body : option (list (string * json));   (** [None]: not a JSON object *)
  req_params : list (string * string);         (** path parameters *)
  req_file : option FileHeader }.              (** the form's "file" part *)

(** The value of the last occurrence of a key, as [encoding/json] keeps
    the last of duplicated keys. *)
Fixpoint assoc_last {A} (k : string) (kv : list (string * A)) : option A :=
  match kv with
  | [] => None
  | (k', v) :: rest =>
      match assoc_last k rest with
      | Some x => Some x
      | None => if String.eqb k k' then Some v else None
      end
  end.

(** [c.Param(k)]: the parameter, or "" when the route has none. *)
Definition Param (c : Request) (k : string) : string :=
  default "" (assoc_last k (req_params c)).

(** Decoding one string field of the target struct: absent or [null] leaves
    the zero value "", a string is taken, anything else is a type error. *)
Definition decode_string (o : option json) : option string :=
  match o with
  | None | Some JNull => Some ""
  | Some (JStr s) => Some s
  | Some _ => None
  end.

(** [c.ShouldBindJSON(&req)] for a struct whose string fields have the
    given JSON names, [true] marking [binding:"required"].  On success the
    decoded struct, as the list of its field values in declaration order. *)
Fixpoint bind_fields (kv : list (string * json)) (fields : list (string * bool))
    : option (list string) :=
  match fields with
  | [] => Some []
  | (name, required) :: rest =>
      match decode_string (assoc_last name kv) with
      | None => None
      | Some v =>
          if required && String.eqb v "" then None
          else match bind_fields kv rest with
               | Some vs => Some (v :: vs)
               | None => None
               end
      end
  end.

Definition ShouldBindJSON (c : Request) (fields : list (string * bool))
    : option (list string) :=
  match req_body c with
  | None => None
  | Some kv => bind_fields kv fields
  end.

(** gin's Recovery middleware: a panicking handler answers a bare 500. *)
Definition recovery (o : outcome Response) : Response :=
  match o with
  | Done r => r
  | Panicked _ => {| status := StatusInternalServerError; body := None |}
  end.

(** The response of [c.JSON(code, gin.H{"error": msg})]. *)
Definition error_response (code : Z) (msg : string) : Response :=
  {| status := code; body := Some (H [("error", JStr msg)]) |}.

Definition json_error (code : Z) (msg : string) : prog Response :=
  JSON code (H [("error", JStr msg)]).

(** A double quote, to build the JSON literals of the code (a Rocq string
    literal would have to double it). *)
Definition dq : string := String (Ascii.ascii_of_nat 34) EmptyString.

(** The pattern the controllers repeat after each SDK call:
    [if err != nil { c.JSON(500, gin.H{"error": fmt.Sprintf(prefix+"%v", err)}); return }]
    and otherwise go on with the output. *)
Definition check {T} (r : result T) (prefix : string) (k : T -> prog Response)
    : prog Response :=
  match r with
  | Err e => json_error StatusInternalServerError (errorf prefix e)
  | Ok x => k x
  end.

(** Go's runtime panic for [s[0]] on an empty slice. *)
Definition index_panic : string := "runtime error: index out of range [0] with length 0".
