(* ===== verification/Lambda.v ===== *)
(** * The Lambda controller (src/controllers/lambda_controller.go)

    [CreateFunction] reads the deployment archive and creates the function,
    [ListFunctions] lists them, and [InvokeFunction] polls the function's
    state up to five times, one second apart, and invokes it once it is
    "Active".  The poll loop is the program's readiness poller: it is
    proved to refine the abstract bounded poller [Poller.poll_spec] of the
    specification (section 4.2). *)

From S2P Require Import Prelude Sdk Prog Gin.

(** [types.StateActive]. *)
Definition StateActive : string := "Active".

(** [functionState == string(types.StateActive)]. *)
Definition is_active (st : string) : bool := String.eqb st StateActive.

(** The payload of [Invoke]: [{"message": "Hello from API Gateway!"}]. *)
Definition invoke_payload : string :=
  "{" +:+ dq +:+ "message" +:+ dq +:+ ": " +:+ dq +:+ "Hello from API Gateway!"
    +:+ dq +:+ "}".

(** How the [for i := 0; i < 5; i++] loop of [InvokeFunction] is left:
    by the early [return] on a GetFunction error, or normally (by [break]
    or by exhausting the attempts) with the last state read. *)
Inductive poll_exit : Type :=
| PollError (msg : string)
| PollDone (functionState : string).

(** The loop with [n] iterations left and the current [functionState]. *)
Fixpoint poll_state (functionName : string) (n : nat) (functionState : string)
    : prog poll_exit :=
  match n with
  | O => Ret (PollDone functionState)
  | S n' =>
      r <- sdk (GetFunction functionName) ;;
      match r with
      | Err e => Ret (PollError e)
      | Ok None => Panic nil_deref_panic
      | Ok (Some st) =>
          if is_active st then Ret (PollDone st)
          else _ <- sdk (Sleep 1) ;; poll_state functionName n' st
      end
  end.

(** The number of attempts of the loop. *)
Definition max_attempts : nat := 5.

(** The code of [InvokeFunction] after the loop: the state check and the
    invocation. *)
Definition after_poll (functionName : string) (ex : poll_exit) : prog Response :=
  match ex with
  | PollError e =>
      json_error StatusInternalServerError
        (errorf "Erro ao verificar estado da função: " e)
  | PollDone functionState =>
      if negb (is_active functionState) then
        json_error StatusInternalServerError "Função ainda não está ativa"
      else
        r <- sdk (Invoke functionName invoke_payload) ;;
        match r with
        | Err e =>
            json_error StatusInternalServerError (errorf "Erro ao invocar função: " e)
        | Ok out =>
            JSON StatusOK (H [("status", JInt (StatusCode out));
                              ("payload", JStr (Payload out))])
        end
  end.

Definition InvokeFunction (c : Request) : prog Response :=
  let functionName := Param c "name" in
  if String.eqb functionName "" then
    json_error StatusBadRequest "Nome da função é obrigatório"
  else
    ex <- poll_state functionName max_attempts "" ;;
    after_poll functionName ex.

(** The role and archive path [CreateFunction] uses. *)
Definition lambda_role : string := "arn:aws:iam::000000000000:role/lambda-role".
Definition function_zip : string := "lambda/function.zip".

(** [CreateFunctionRequest]: [name] (required) and [description]. *)
Definition CreateFunctionRequest : list (string * bool) :=
  [("name", true); ("description", false)].

(** The method [CreateFunction] of [LambdaController] (the name
    [CreateFunction] is the SDK call's). *)
Definition CreateFunctionHandler (c : Request) : prog Response :=
  match ShouldBindJSON c CreateFunctionRequest with
  | Some [name; description] =>
      z <- sdk (ReadFile function_zip) ;;
      match z with
      | Err e => json_error StatusInternalServerError (errorf "Erro ao ler arquivo ZIP: " e)
      | Ok zipFile =>
          r <- sdk (CreateFunction {| cf_FunctionName := name;
                                     cf_Description := description;
                                     cf_Runtime := "go1.x";
                                     cf_Handler := "main";
                                     cf_Role := lambda_role;
                                     cf_ZipFile := zipFile |}) ;;
          match r with
          | Err e => json_error StatusInternalServerError (errorf "Erro ao criar função: " e)
          | Ok arn =>
              a <- deref arn ;;
              JSON StatusOK (H [("message", JStr "Função criada com sucesso");
                                ("arn", JStr a)])
          end
      end
  | _ => json_error StatusBadRequest "Nome da função é obrigatório"
  end.

(** The method [ListFunctions] of [LambdaController]. *)
Definition ListFunctionsHandler : prog Response :=
  r <- sdk ListFunctions ;;
  match r with
  | Err e => json_error StatusInternalServerError (errorf "Erro ao listar funções: " e)
  | Ok fns =>
      functions <- mapM (fun f =>
          n <- deref (fn_FunctionName f) ;;
          d <- deref (fn_Description f) ;;
          a <- deref (fn_FunctionArn f) ;;
          Ret (JObj [("name", JStr n); ("description", JStr d); ("arn", JStr a)])) fns ;;
      JSON StatusOK (H [("functions", JArr functions)])
  end.

(** ** The abstract readiness poller (specification, section 4.2)

    Given the answers of successive polls, the poller stops at the first
    ready snapshot ([Ready]) or the first failed poll ([PollFailed]); after
    [maxAttempts] unready snapshots it times out.  It returns the outcome
    and the number of polls made, or [None] when the answers run out
    before it decides. *)
Module Poller.
Inductive poll_result : Type :=
| Ready
| Timeout
| PollFailed (msg : string).

Section Spec.
Context {snapshot : Type} (isReady : snapshot -> bool).

Fixpoint poll_spec (maxAttempts : nat) (answers : list (result snapshot))
    : option (poll_result * nat) :=
  match maxAttempts, answers with
  | O, _ => Some (Timeout, 0)
  | S _, [] => None
  | S m, Err e :: _ => Some (PollFailed e, 1)
  | S m, Ok s :: rest =>
      if isReady s then Some (Ready, 1)
      else match poll_spec m rest with
           | Some (o, k) => Some (o, S k)
           | None => None
           end
  end.

Lemma poll_spec_bound m answers o k :
  poll_spec m answers = Some (o, k) -> k <= m.
Proof.
  revert answers k. induction m as [|m IH]; intros answers k Hs; simpl in Hs.
  - injection Hs as <- <-. lia.
  - destruct answers as [|[s|e] rest]; [congruence| |injection Hs as <- <-; lia].
    destruct (isReady s); [injection Hs as <- <-; lia|].
    destruct (poll_spec m rest) as [[o' k']|] eqn:E; [|congruence].
    injection Hs as <- <-. apply IH in E. lia.
Qed.

(** A timeout is declared only once every attempt was used. *)
Lemma poll_spec_timeout m answers k :
  poll_spec m answers = Some (Timeout, k) -> k = m.
Proof.
  revert answers k. induction m as [|m IH]; intros answers k Hs; simpl in Hs.
  - by injection Hs as <-.
  - destruct answers as [|[s|e] rest]; [congruence| |congruence].
    destruct (isReady s); [congruence|].
    destruct (poll_spec m rest) as [[o' k']|] eqn:E; [|congruence].
    injection Hs as -> <-. apply IH in E. lia.
Qed.
End Spec.
End Poller.

(** ** The poll loop refines the abstract poller *)

(** The answers GetFunction gave, in order, as found in a log. *)
Definition get_function_reply (e : event) : list (result (option string)) :=
  match e with
  | existT c r =>
      match c as c0 return reply_of c0 -> list (result (option string)) with
      | GetFunction _ => fun r => [r]
      | _ => fun _ => []
      end r
  end.

Definition function_polls (log : list event) : list (result (option string)) :=
  flat_map get_function_reply log.

(** The number of [time.Sleep] calls in a log. *)
Definition is_sleep (c : call) : bool := match c with Sleep _ => true | _ => false end.
Definition sleeps (log : list event) : nat := count_calls is_sleep log.

(** A GetFunction answer as a poll: a nil [Configuration], which the code
    dereferences, is a failed poll like an SDK error. *)
Definition answer_abs (r : result (option string)) : result string :=
  match r with
  | Ok (Some st) => Ok st
  | Ok None => Err nil_deref_panic
  | Err e => Err e
  end.

(** The abstract outcome of the loop: its normal exits, or a panic. *)
Definition out_abs (o : outcome poll_exit) : Poller.poll_result :=
  match o with
  | Done (PollError e) => Poller.PollFailed e
  | Done (PollDone st) => if is_active st then Poller.Ready else Poller.Timeout
  | Panicked m => Poller.PollFailed m
  end.

Lemma function_polls_app l1 l2 :
  function_polls (l1 ++ l2) = function_polls l1 ++ function_polls l2.
Proof. apply flat_map_app. Qed.

#[export] Hint Rewrite function_polls_app : localstack_rw.

(** Closes the leaves of a loop or chain proof: equalities that compute
    and implications from a discriminable equation. *)
Ltac close_leaf := repeat split; try reflexivity; try (intros; discriminate).

Section PollLoop.
Context {W : Type} `{Backend W}.

(** One iteration of the loop, after GetFunction answered [r]. *)
Lemma run_poll_state_S name n st h w :
  run (poll_state name (S n) st) h w =
    let '(w1, r) := backend_call w (GetFunction name) in
    let fr := run (match r with
                   | Err e => Ret (PollError e)
                   | Ok None => Panic nil_deref_panic
                   | Ok (Some st') =>
                       if is_active st' then Ret (PollDone st')
                       else _ <- sdk (Sleep 1) ;; poll_state name n st'
                   end) h w1 in
    mkFinal (f_out fr) (f_heap fr) (f_world fr) ((GetFunction name ↦ r) :: f_log fr).
Proof. reflexivity. Qed.

(** The general invariant of the loop, from any not-yet-active state:
    its outcome is the abstract poller's verdict on the answers read,
    having read exactly the answers the poller needs.  The fields are not
    touched, and on a timeout every answer was followed by one [Sleep]. *)
Lemma poll_state_spec name n st h w :
  is_active st = false ->
  let fr := run (poll_state name n st) h w in
  let rs := function_polls (f_log fr) in
  f_heap fr = h /\
  Poller.poll_spec is_active n (map answer_abs rs) = Some (out_abs (f_out fr), length rs) /\
  (out_abs (f_out fr) = Poller.Timeout -> sleeps (f_log fr) = length rs).
Proof.
  revert st w. induction n as [|n IH]; intros st w Hst.
  - simpl. rewrite Hst. auto.
  - rewrite run_poll_state_S.
    destruct (backend_call w (GetFunction name)) as [w1 [[st'|]|e]]; simpl;
      [|close_leaf..].
    destruct (is_active st') eqn:Ha; simpl; [rewrite Ha; close_leaf|].
    destruct (backend_call w1 (Sleep 1)) as [w2 u]; simpl.
    destruct (IH st' w2 Ha) as (Hh & Hs & Hsl).
    destruct (run (poll_state name n st') h w2) as [o h2 w3 log]; simpl in *.
    rewrite Hs. repeat split; [done|].
    intros Ht. unfold sleeps in *. rewrite !count_calls_cons, (Hsl Ht). done.
Qed.

Lemma poll_state_polls_bound name n st h w :
  is_active st = false ->
  length (function_polls (f_log (run (poll_state name n st) h w))) <= n.
Proof.
  intros Hst. destruct (poll_state_spec name n st h w Hst) as (_ & Hs & _).
  exact (Poller.poll_spec_bound _ _ _ _ _ Hs).
Qed.

(** The loop makes no call but GetFunction and Sleep. *)
Lemma poll_state_only_polls (p : call -> bool) name n st h w :
  p (GetFunction name) = false -> p (Sleep 1) = false ->
  count_calls p (f_log (run (poll_state name n st) h w)) = 0.
Proof.
  intros Hg Hs. revert st w. induction n as [|n IH]; intros st w; [done|].
  rewrite run_poll_state_S.
  destruct (backend_call w (GetFunction name)) as [w1 [[st'|]|e]]; simpl;
    rewrite count_calls_cons; simpl; rewrite Hg; [|done..].
  destruct (is_active st'); [done|]. simpl.
  destruct (backend_call w1 (Sleep 1)) as [w2 u]; simpl.
  rewrite count_calls_cons; simpl. rewrite Hs. apply IH.
Qed.
End PollLoop.

(** ** The handler *)

Definition is_get_function (c : call) : bool :=
  match c with GetFunction _ => true | _ => false end.
Definition is_invoke (c : call) : bool :=
  match c with Invoke _ _ => true | _ => false end.

(** Whether the loop left with an active function. *)
Definition exit_ready (ex : poll_exit) : bool :=
  match ex with PollDone st => is_active st | PollError _ => false end.

Lemma out_abs_ready ex : out_abs (Done ex) = Poller.Ready <-> exit_ready ex = true.
Proof.
  destruct ex as [e|st]; simpl; [split; discriminate|].
  destruct (is_active st); split; congruence.
Qed.

Lemma function_polls_invoke name r :
  function_polls [Invoke name invoke_payload ↦ r] = [].
Proof. reflexivity. Qed.

Section Handler.
Context {W : Type} `{Backend W}.

Lemma run_InvokeFunction c h w :
  run (InvokeFunction c) h w =
    if String.eqb (Param c "name") "" then
      run (json_error StatusBadRequest "Nome da função é obrigatório") h w
    else run_then (run (poll_state (Param c "name") max_attempts "") h w)
                  (after_poll (Param c "name")).
Proof.
  unfold InvokeFunction. cbv zeta.
  destruct (String.eqb (Param c "name") ""); [done|]. apply run_bind.
Qed.

(** After the loop, the only call is the invocation, made exactly when
    the loop left with an active function. *)
Lemma after_poll_log name ex h w :
  f_log (run (after_poll name ex) h w) =
    if exit_ready ex
    then [Invoke name invoke_payload ↦ snd (backend_call w (Invoke name invoke_payload))]
    else [].
Proof.
  destruct ex as [e|st]; simpl; [done|].
  destruct (is_active st); simpl; [|done].
  destruct (backend_call w (Invoke name invoke_payload)) as [w1 [out|e]]; done.
Qed.

(** Everything the handler does once it has a function name, as the
    verdict [v] of the abstract poller on the answers it read: exactly
    one invocation when [v] is [Ready], none otherwise, and on a timeout
    the "not active" error after one [Sleep] per answer. *)
Lemma InvokeFunction_verdict c h w :
  Param c "name" <> "" ->
  let fr := run (InvokeFunction c) h w in
  let rs := function_polls (f_log fr) in
  exists v,
    Poller.poll_spec is_active max_attempts (map answer_abs rs) = Some (v, length rs) /\
    count_calls is_invoke (f_log fr) = (if v is Poller.Ready then 1 else 0) /\
    (v = Poller.Timeout ->
       f_out fr = Done (error_response StatusInternalServerError
                          "Função ainda não está ativa") /\
       sleeps (f_log fr) = length rs).
Proof.
  intros Hn. rewrite run_InvokeFunction. apply String.eqb_neq in Hn. rewrite Hn.
  set (name := Param c "name").
  destruct (poll_state_spec name max_attempts "" h w eq_refl) as (_ & Hs & Hsl).
  pose proof (poll_state_only_polls is_invoke name max_attempts "" h w eq_refl eq_refl)
    as Hi.
  unfold run_then.
  destruct (run (poll_state name max_attempts "") h w) as [o h1 w1 log].
  cbn [f_out f_log f_heap f_world] in *.
  destruct o as [ex|m]; cbn [f_out f_log].
  2:{ exists (Poller.PollFailed m). rewrite Hi. repeat split; first [exact Hs | discriminate | done]. }
  exists (out_abs (Done ex)).
  rewrite function_polls_app, after_poll_log, count_calls_app, Hi.
  destruct ex as [e|st]; cbn [exit_ready].
  { rewrite app_nil_r. repeat split; first [exact Hs | discriminate | done]. }
  destruct (is_active st) eqn:Ha; cbn [out_abs] in *; rewrite Ha in *.
  - rewrite function_polls_invoke, app_nil_r.
    repeat split; first [exact Hs | discriminate | done].
  - rewrite app_nil_r. split; [exact Hs|]. split; [done|].
    intros _. split; [unfold after_poll; by rewrite Ha|].
    unfold sleeps in *. rewrite count_calls_app, (Hsl eq_refl). done.
Qed.
End Handler.

(** ** Scripted emulators for the scenarios

    [lambda_script k] answers GetFunction with "Pending" until the [k]-th
    call of the run (calls are numbered from 0) and with "Active" from then
    on; the other calls get their default reply. *)
Definition lambda_script (ready_from : nat) : nat -> forall c : call, reply_of c :=
  fun n c =>
    match c as c0 return reply_of c0 with
    | GetFunction _ => Ok (Some (if Nat.ltb n ready_from then "Pending" else StateActive))
    | c0 => default_reply c0
    end.

Definition empty_heap : Heap :=
  {| h_sqs := {| sqs_queueURL := ""; sqs_queueName := "" |};
     h_sns := {| sns_topicARN := ""; sns_topicName := "" |} |}.

Definition invoke_request (name : string) : Request :=
  {| req_body := None; req_params := [("name", name)]; req_file := None |}.

(** ** Properties of [InvokeFunction] *)

(** C1: the readiness loop of [InvokeFunction] refines the abstract poller
    of the specification: whatever the emulator answers, the loop's outcome
    (a panic on a nil configuration counting as a failed poll) is the
    poller's verdict on the answers GetFunction gave, and the loop read
    exactly the answers the poller needed to decide. *)
Theorem poll_loop_refines {W} `{Backend W} name h w :
  let fr := run (poll_state name max_attempts "") h w in
  let rs := function_polls (f_log fr) in
  Poller.poll_spec is_active max_attempts (map answer_abs rs) =
    Some (out_abs (f_out fr), length rs).
Proof. apply (poll_state_spec name max_attempts "" h w eq_refl). Qed.

(** C7: [InvokeFunction] never calls GetFunction more than five times. *)
Theorem InvokeFunction_poll_bound {W} `{Backend W} c h w :
  length (function_polls (f_log (run (InvokeFunction c) h w))) <= max_attempts.
Proof.
  destruct (String.eqb_spec (Param c "name") "") as [He|Hn].
  - rewrite run_InvokeFunction, He. simpl. lia.
  - destruct (InvokeFunction_verdict c h w Hn) as (v & Hs & _).
    exact (Poller.poll_spec_bound _ _ _ _ _ Hs).
Qed.

(** C4: the function is invoked exactly once when the poller's verdict on
    the answers read is [Ready], and never otherwise (nor without a name). *)
Theorem InvokeFunction_invokes_iff_ready {W} `{Backend W} c h w :
  let fr := run (InvokeFunction c) h w in
  count_calls is_invoke (f_log fr) =
    if String.eqb (Param c "name") "" then 0
    else match Poller.poll_spec is_active max_attempts
                 (map answer_abs (function_polls (f_log fr))) with
         | Some (Poller.Ready, _) => 1
         | _ => 0
         end.
Proof.
  destruct (String.eqb_spec (Param c "name") "") as [He|Hn].
  - rewrite run_InvokeFunction, He. reflexivity.
  - destruct (InvokeFunction_verdict c h w Hn) as (v & Hs & Hi & _).
    cbv zeta. rewrite Hs, Hi. by destruct v.
Qed.

(** C8: when the function never becomes active within the attempts, the
    handler answers 500 "Função ainda não está ativa" without invoking it,
    after five GetFunction calls each followed by a one-second sleep (the
    last sleep happens after the last attempt). *)
Theorem InvokeFunction_timeout {W} `{Backend W} c h w k :
  Param c "name" <> "" ->
  let fr := run (InvokeFunction c) h w in
  Poller.poll_spec is_active max_attempts
    (map answer_abs (function_polls (f_log fr))) = Some (Poller.Timeout, k) ->
  f_out fr = Done (error_response StatusInternalServerError "Função ainda não está ativa") /\
  count_calls is_invoke (f_log fr) = 0 /\
  length (function_polls (f_log fr)) = max_attempts /\
  sleeps (f_log fr) = max_attempts.
Proof.
  intros Hn fr Ht. destruct (InvokeFunction_verdict c h w Hn) as (v & Hs & Hi & Hto).
  fold fr in Hs, Hi, Hto. rewrite Ht in Hs. injection Hs as <- Hk.
  pose proof (Poller.poll_spec_timeout _ _ _ _ Ht) as ->.
  destruct (Hto eq_refl) as [Ho Hsl]. rewrite Hsl, Hk. auto.
Qed.

Lemma InvokeFunction_timeout_witness :
  let B := oracle_backend (lambda_script 100) in
  f_out (@run _ B _ (InvokeFunction (invoke_request "demo")) empty_heap 0) =
    Done (error_response StatusInternalServerError "Função ainda não está ativa") /\
  sleeps (f_log (@run _ B _ (InvokeFunction (invoke_request "demo")) empty_heap 0)) = 5.
Proof.
  cbv zeta.
  destruct (@InvokeFunction_timeout nat (oracle_backend (lambda_script 100))
              (invoke_request "demo") empty_heap 0 5) as (Ho & _ & _ & Hs);
    [discriminate | vm_compute; reflexivity |].
  split; [exact Ho | exact Hs].
Defined.

(** ** The other two handlers *)

(** A configuration all of whose listed fields are non-nil pointers. *)
Definition complete_function (f : FunctionConfiguration) : bool :=
  match fn_FunctionName f, fn_Description f, fn_FunctionArn f with
  | Some _, Some _, Some _ => true
  | _, _, _ => false
  end.

Definition function_summary (f : FunctionConfiguration) : json :=
  JObj [("name", JStr (default "" (fn_FunctionName f)));
        ("description", JStr (default "" (fn_Description f)));
        ("arn", JStr (default "" (fn_FunctionArn f)))].

(** C27: [ListFunctions] makes one ListFunctions call; on an error it
    answers 500 with the wrapped message; otherwise it answers 200 with
    one object per function, in the backend's order, when every function
    has its name, description and ARN, and panics (a bare 500) when one
    of these pointers is nil. *)
Theorem ListFunctions_lists_every_function {W} `{Backend W} h w :
  let fr := run ListFunctionsHandler h w in
  calls_of (f_log fr) = [ListFunctions] /\ f_heap fr = h /\
  f_out fr =
    match snd (backend_call w ListFunctions) with
    | Err e => Done (error_response StatusInternalServerError (errorf "Erro ao listar funções: " e))
    | Ok fns =>
        if forallb complete_function fns
        then Done {| status := StatusOK;
                     body := Some (H [("functions", JArr (map function_summary fns))]) |}
        else Panicked nil_deref_panic
    end.
Proof.
  unfold ListFunctionsHandler. cbv zeta. rewrite run_bind, run_sdk. unfold run_then. simpl.
  destruct (backend_call w ListFunctions) as [w1 [fns|e]]; simpl; [|done].
  rewrite run_bind.
  rewrite (run_mapM_pure _ (fun f => if complete_function f then Done (function_summary f)
                                     else Panicked nil_deref_panic))
    by (intros [[n|] [d|] [a|]] _; reflexivity).
  rewrite collect_map_guard. unfold run_then. simpl.
  by destruct (forallb complete_function fns).
Qed.
