(* ===== verification/ApiGateway.v ===== *)
(** * The API Gateway controller (src/controllers/apigateway_controller.go)

    [CreateAPI] builds a REST API in eight SDK calls: create the API, fetch
    its root resource, create the child resource "test", attach a GET
    method, its Lambda proxy integration, the method response, the
    integration response, and deploy the stage "test".  Each call's error
    aborts the handler with a 500 naming the step; nothing already created
    is undone.  [ListAPIs] lists the APIs.

    The chain is proved to refine the abstract build plan of the
    specification (section 4.4): the steps issued are a prefix of the plan,
    in order, and the handler's answer is the plan's verdict on the
    answers the steps got. *)

From S2P Require Import Prelude Sdk Prog Gin.

(** [CreateAPIRequest]: [name] (required) and [description]. *)
Definition CreateAPIRequest : list (string * bool) :=
  [("name", true); ("description", false)].

(** The integration target, the response model and the response template
    of [CreateAPI]. *)
Definition integration_uri : string :=
  "arn:aws:apigateway:us-east-1:lambda:path/2015-03-31/functions/"
  +:+ "arn:aws:lambda:us-east-1:000000000000:function:minha-funcao/invocations".

Definition hello_template : string :=
  "{" +:+ dq +:+ "message" +:+ dq +:+ ": " +:+ dq +:+ "Hello from API Gateway!"
    +:+ dq +:+ "}".

(** The URL of the deployed stage, [fmt.Sprintf(".../restapis/%s/test/stages/test", id)]. *)
Definition stage_url (id : string) : string :=
  "http://localhost:4566/restapis/" +:+ id +:+ "/test/stages/test".

Definition created_response (id : string) : Response :=
  {| status := StatusOK;
     body := Some (H [("message", JStr "API criada com sucesso");
                      ("api_id", JStr id);
                      ("url", JStr (stage_url id))]) |}.

(** The error prefixes, one per step. *)
Definition msg_create_api := "Erro ao criar API: ".
Definition msg_get_resources := "Erro ao obter recursos: ".
Definition msg_create_resource := "Erro ao criar recurso: ".
Definition msg_put_method := "Erro ao criar método: ".
Definition msg_put_integration := "Erro ao configurar integração: ".
Definition msg_put_method_response := "Erro ao configurar resposta: ".
Definition msg_put_integration_response := "Erro ao configurar resposta da integração: ".
Definition msg_create_deployment := "Erro ao criar deployment: ".

Definition CreateAPI (c : Request) : prog Response :=
  match ShouldBindJSON c CreateAPIRequest with
  | Some [name; description] =>
      r1 <- sdk (CreateRestApi name description) ;;
      check r1 msg_create_api (fun apiId =>
      r2 <- sdk (GetResources apiId) ;;
      check r2 msg_get_resources (fun items =>
      match items with
      | [] => Panic index_panic
      | rootId :: _ =>
          r3 <- sdk (CreateResource apiId rootId "test") ;;
          check r3 msg_create_resource (fun resourceId =>
          r4 <- sdk (PutMethod apiId resourceId "GET" "NONE") ;;
          check r4 msg_put_method (fun _ =>
          r5 <- sdk (PutIntegration apiId resourceId "GET" "AWS_PROXY" "POST"
                       integration_uri) ;;
          check r5 msg_put_integration (fun _ =>
          r6 <- sdk (PutMethodResponse apiId resourceId "GET" "200"
                       [("application/json", "Empty")]) ;;
          check r6 msg_put_method_response (fun _ =>
          r7 <- sdk (PutIntegrationResponse apiId resourceId "GET" "200"
                       [("application/json", hello_template)]) ;;
          check r7 msg_put_integration_response (fun _ =>
          r8 <- sdk (CreateDeployment apiId "test") ;;
          check r8 msg_create_deployment (fun _ =>
          id <- deref apiId ;;
          Ret (created_response id)))))))
      end))
  | _ => json_error StatusBadRequest "Nome da API é obrigatório"
  end.

Definition ListAPIs : prog Response :=
  r <- sdk GetRestApis ;;
  check r "Erro ao listar APIs: " (fun items =>
  apis <- mapM (fun api =>
      i <- deref (api_Id api) ;;
      n <- deref (api_Name api) ;;
      d <- deref (api_Description api) ;;
      Ret (JObj [("id", JStr i); ("name", JStr n); ("description", JStr d)])) items ;;
  JSON StatusOK (H [("apis", JArr apis)])).

(** ** The abstract build plan (specification, section 4.4)

    A plan is a list of steps; each step's answer is a success, a failure
    or a crash.  The plan runs the steps in order and stops at the first
    one that does not succeed; it returns its verdict and the number of
    steps it ran, or [None] when the answers run out first. *)
Module Plan.
Inductive step_result : Type :=
| StepOk
| StepFailed (msg : string)
| StepCrashed (msg : string).

Inductive plan_outcome (S : Type) : Type :=
| Completed
| Aborted (s : S) (msg : string)
| Crashed (s : S) (msg : string).
Arguments Completed {S}.
Arguments Aborted {S} s msg.
Arguments Crashed {S} s msg.

Fixpoint exec_plan {St} (steps : list St) (answers : list step_result)
    : option (plan_outcome St * nat) :=
  match steps, answers with
  | [], _ => Some (Completed, 0)
  | _ :: _, [] => None
  | s :: _, StepFailed e :: _ => Some (Aborted s e, 1)
  | s :: _, StepCrashed m :: _ => Some (Crashed s m, 1)
  | _ :: rest, StepOk :: more =>
      match exec_plan rest more with
      | Some (o, k) => Some (o, S k)
      | None => None
      end
  end.
End Plan.

(** The steps of the REST-API build plan, in the order of the code. *)
Inductive api_step : Type :=
| SCreateRestApi | SGetResources | SCreateResource | SPutMethod
| SPutIntegration | SPutMethodResponse | SPutIntegrationResponse | SCreateDeployment.

#[export] Instance api_step_eq_dec : EqDecision api_step.
Proof. solve_decision. Defined.

Definition rest_api_plan : list api_step :=
  [SCreateRestApi; SGetResources; SCreateResource; SPutMethod;
   SPutIntegration; SPutMethodResponse; SPutIntegrationResponse; SCreateDeployment].

Definition step_message (s : api_step) : string :=
  match s with
  | SCreateRestApi => msg_create_api
  | SGetResources => msg_get_resources
  | SCreateResource => msg_create_resource
  | SPutMethod => msg_put_method
  | SPutIntegration => msg_put_integration
  | SPutMethodResponse => msg_put_method_response
  | SPutIntegrationResponse => msg_put_integration_response
  | SCreateDeployment => msg_create_deployment
  end.

Definition result_step {T} (r : result T) : Plan.step_result :=
  match r with Ok _ => Plan.StepOk | Err e => Plan.StepFailed e end.

(** A logged call as a plan step with its answer; an empty list of
    resources is a crash, since the code indexes its first element. *)
Definition api_step_of (e : event) : list (api_step * Plan.step_result) :=
  match e with
  | existT c r =>
      match c as c0 return reply_of c0 -> list (api_step * Plan.step_result) with
      | CreateRestApi _ _ => fun r => [(SCreateRestApi, result_step r)]
      | GetResources _ => fun r =>
          [(SGetResources, match r with
                           | Ok [] => Plan.StepCrashed index_panic
                           | Ok _ => Plan.StepOk
                           | Err e => Plan.StepFailed e
                           end)]
      | CreateResource _ _ _ => fun r => [(SCreateResource, result_step r)]
      | PutMethod _ _ _ _ => fun r => [(SPutMethod, result_step r)]
      | PutIntegration _ _ _ _ _ _ => fun r => [(SPutIntegration, result_step r)]
      | PutMethodResponse _ _ _ _ _ => fun r => [(SPutMethodResponse, result_step r)]
      | PutIntegrationResponse _ _ _ _ _ => fun r => [(SPutIntegrationResponse, result_step r)]
      | CreateDeployment _ _ => fun r => [(SCreateDeployment, result_step r)]
      | _ => fun _ => []
      end r
  end.

Definition api_steps (log : list event) : list (api_step * Plan.step_result) :=
  flat_map api_step_of log.

(** The id CreateRestApi returned, as found at the head of a log. *)
Definition created_api_id (log : list event) : option string :=
  match log with
  | existT c r :: _ =>
      match c as c0 return reply_of c0 -> option string with
      | CreateRestApi _ _ => fun r => match r with Ok id => id | Err _ => None end
      | _ => fun _ => None
      end r
  | [] => None
  end.

(** What the handler answers for a verdict of the plan. *)
Definition plan_response (o : Plan.plan_outcome api_step) (apiId : option string)
    : outcome Response :=
  match o with
  | Plan.Completed =>
      match apiId with
      | Some id => Done (created_response id)
      | None => Panicked nil_deref_panic
      end
  | Plan.Aborted s e => Done (error_response StatusInternalServerError (errorf (step_message s) e))
  | Plan.Crashed _ m => Panicked m
  end.

(** Splits on the next SDK reply of a straight-line chain. *)
Ltac next_reply :=
  match goal with
  | |- context [backend_call ?w ?c] =>
      let w' := fresh "w" in destruct (backend_call w c) as [w' [?x|?e]]
  | |- context [match ?l with [] => Panic _ | _ :: _ => _ end] => destruct l
  | |- context [deref ?p] => destruct p
  end.

Section CreateAPI.
Context {W : Type} `{Backend W}.

(** C2: the chain of [CreateAPI] refines the build plan of the
    specification: every call it makes is a step of the plan, the steps
    come in the plan's order, the chain stops exactly where the plan stops
    (at the first failed step, with nothing undone), and the handler's
    answer is the plan's verdict: the created API's URL, or a 500 naming
    the failed step, or a panic. *)
Theorem CreateAPI_refines_build_plan c h w name description :
  ShouldBindJSON c CreateAPIRequest = Some [name; description] ->
  let fr := run (CreateAPI c) h w in
  let sa := api_steps (f_log fr) in
  length sa = length (f_log fr) /\
  map fst sa = take (length sa) rest_api_plan /\
  exists o, Plan.exec_plan rest_api_plan (map snd sa) = Some (o, length sa) /\
            f_out fr = plan_response o (created_api_id (f_log fr)).
Proof.
  intros Hb. unfold CreateAPI. rewrite Hb.
  repeat (simpl; next_reply).
  all: simpl; split; [reflexivity|]; split; [reflexivity|].
  all: eexists; split; reflexivity.
Qed.

Definition is_create_rest_api (c : call) : bool :=
  match c with CreateRestApi _ _ => true | _ => false end.

Lemma CreateAPI_creates_once c h w name description :
  ShouldBindJSON c CreateAPIRequest = Some [name; description] ->
  count_calls is_create_rest_api (f_log (run (CreateAPI c) h w)) = 1 /\
  f_heap (run (CreateAPI c) h w) = h.
Proof.
  intros Hb. unfold CreateAPI. rewrite Hb.
  repeat (simpl; next_reply); simpl; auto.
Qed.

(** C13: [CreateAPI] keeps no record of what it built: a second request
    for the same API creates a second one, whatever the first request
    did.  (The specification asks that provisioning run once per target.) *)
Theorem CreateAPI_twice_creates_twice c h w name description :
  ShouldBindJSON c CreateAPIRequest = Some [name; description] ->
  let fr1 := run (CreateAPI c) h w in
  let fr2 := run (CreateAPI c) (f_heap fr1) (f_world fr1) in
  count_calls is_create_rest_api (f_log fr1 ++ f_log fr2) = 2.
Proof.
  intros Hb. cbv zeta. rewrite count_calls_app.
  rewrite (proj1 (CreateAPI_creates_once c h w _ _ Hb)).
  rewrite (proj1 (CreateAPI_creates_once c _ _ _ _ Hb)). reflexivity.
Qed.
End CreateAPI.

(** ** The listing *)

(** An API all of whose listed fields are non-nil pointers. *)
Definition complete_api (api : RestApi) : bool :=
  match api_Id api, api_Name api, api_Description api with
  | Some _, Some _, Some _ => true
  | _, _, _ => false
  end.

Definition api_summary (api : RestApi) : json :=
  JObj [("id", JStr (default "" (api_Id api))); ("name", JStr (default "" (api_Name api)));
        ("description", JStr (default "" (api_Description api)))].

(** C26: [ListAPIs] makes one GetRestApis call and changes no field; on an
    error it answers 500 with the wrapped message; otherwise, when every
    API has its id, name and description, it answers 200 with one object
    per API, in the backend's order, and when one of them has a nil field
    the dereference panics (gin answers a bare 500). *)
Theorem ListAPIs_lists_every_api {W} `{Backend W} h w :
  let fr := run ListAPIs h w in
  calls_of (f_log fr) = [GetRestApis] /\ f_heap fr = h /\
  f_out fr =
    match snd (backend_call w GetRestApis) with
    | Err e => Done (error_response StatusInternalServerError (errorf "Erro ao listar APIs: " e))
    | Ok items =>
        if forallb complete_api items
        then Done {| status := StatusOK; body := Some (H [("apis", JArr (map api_summary items))]) |}
        else Panicked nil_deref_panic
    end.
Proof.
  unfold ListAPIs. cbv zeta. rewrite run_bind, run_sdk. unfold run_then. simpl.
  destruct (backend_call w GetRestApis) as [w1 [items|e]]; simpl; [|done].
  rewrite run_bind.
  rewrite (run_mapM_pure _ (fun api => if complete_api api then Done (api_summary api)
                                       else Panicked nil_deref_panic))
    by (intros [[i|] [n|] [d|]] _; reflexivity).
  rewrite collect_map_guard. unfold run_then. simpl.
  by destruct (forallb complete_api items).
Qed.

(** ** Scenarios *)

(** An emulator for the build chain whose step [bad] fails with "boom". *)
Definition api_script (bad : api_step) : nat -> forall c : call, reply_of c :=
  fun _ c =>
    match c as c0 return reply_of c0 with
    | CreateRestApi _ _ =>
        if decide (bad = SCreateRestApi) then Err "boom" else Ok (Some "api1")
    | GetResources _ => if decide (bad = SGetResources) then Err "boom" else Ok [Some "root"]
    | CreateResource _ _ _ =>
        if decide (bad = SCreateResource) then Err "boom" else Ok (Some "res1")
    | PutMethod _ _ _ _ => if decide (bad = SPutMethod) then Err "boom" else Ok tt
    | PutIntegration _ _ _ _ _ _ =>
        if decide (bad = SPutIntegration) then Err "boom" else Ok tt
    | PutMethodResponse _ _ _ _ _ =>
        if decide (bad = SPutMethodResponse) then Err "boom" else Ok tt
    | PutIntegrationResponse _ _ _ _ _ =>
        if decide (bad = SPutIntegrationResponse) then Err "boom" else Ok tt
    | CreateDeployment _ _ => if decide (bad = SCreateDeployment) then Err "boom" else Ok tt
    | c0 => default_reply c0
    end.

Definition api_request (name : string) : Request :=
  {| req_body := Some [("name", JStr name)]; req_params := []; req_file := None |}.

Definition api_heap : Heap :=
  {| h_sqs := {| sqs_queueURL := ""; sqs_queueName := "" |};
     h_sns := {| sns_topicARN := ""; sns_topicName := "" |} |}.

(** The specification's scenario: attaching the integration fails; the
    four earlier steps were issued and are not undone, and the answer
    names the failed step. *)
Lemma CreateAPI_refines_build_plan_witness :
  let B := oracle_backend (api_script SPutIntegration) in
  let fr := @run _ B _ (CreateAPI (api_request "demo")) api_heap 0 in
  let sa := api_steps (f_log fr) in
  length sa = length (f_log fr) /\
  map fst sa = take (length sa) rest_api_plan /\
  exists o, Plan.exec_plan rest_api_plan (map snd sa) = Some (o, length sa) /\
            f_out fr = plan_response o (created_api_id (f_log fr)).
Proof.
  exact (@CreateAPI_refines_build_plan nat (oracle_backend (api_script SPutIntegration))
           (api_request "demo") api_heap 0 "demo" "" eq_refl).
Defined.

Lemma CreateAPI_twice_creates_twice_witness :
  let B := oracle_backend (api_script SCreateDeployment) in
  let fr1 := @run _ B _ (CreateAPI (api_request "demo")) api_heap 0 in
  let fr2 := @run _ B _ (CreateAPI (api_request "demo")) (f_heap fr1) (f_world fr1) in
  count_calls is_create_rest_api (f_log fr1 ++ f_log fr2) = 2.
Proof.
  exact (@CreateAPI_twice_creates_twice nat (oracle_backend (api_script SCreateDeployment))
           (api_request "demo") api_heap 0 "demo" "" eq_refl).
Defined.
