(* ===== verification/Sqs.v ===== *)
(** * The SQS controller (src/controllers/sqs_controller.go)

    The controller caches the queue URL in its field [queueURL].  Each
    handler first runs the guard [if s.queueURL == "" { s.setupQueue() }]:
    [setupQueue] creates the queue "demo-queue" (CreateQueue is idempotent
    by name on the backend) and stores the returned URL.  [SendMessage]
    then sends the request's message; [ReceiveMessage] long-polls one
    message, deletes it and returns its body.

    Proved here, for every backend: the guard calls CreateQueue exactly
    when the cache is empty and then caches what it returned; a failed
    setup leaves the cache empty and answers 500; two requests in a row
    create the queue once. *)

From S2P Require Import Prelude Sdk Prog Gin.

Definition NewSQSController : SQSController :=
  {| sqs_queueURL := ""; sqs_queueName := "demo-queue" |}.

Definition setupQueue : prog (result unit) :=
  queueName <- read_field QueueName ;;
  r <- sdk (CreateQueue queueName) ;;
  match r with
  | Err e => Ret (Err (errorf "erro ao criar fila SQS: " e))
  | Ok queueUrl =>
      u <- deref queueUrl ;;
      _ <- write_field QueueURL u ;;
      Ret (Ok tt)
  end.

(** [if s.queueURL == "" { if err := s.setupQueue(); err != nil { 500 } }]
    followed by the rest [k] of the handler. *)
Definition ensure_queue (k : prog Response) : prog Response :=
  queueURL <- read_field QueueURL ;;
  if String.eqb queueURL "" then
    r <- setupQueue ;;
    match r with
    | Err e => json_error StatusInternalServerError e
    | Ok _ => k
    end
  else k.

(** [SendMessageRequest]: [message] (required). *)
Definition SendMessageRequest : list (string * bool) := [("message", true)].

(** [SendMessage] after the guard. *)
Definition send_message_rest (c : Request) : prog Response :=
  match ShouldBindJSON c SendMessageRequest with
  | Some [message] =>
      queueURL <- read_field QueueURL ;;
      r <- sdk (SendMessage queueURL message) ;;
      check r "Erro ao enviar mensagem: " (fun _ =>
      JSON StatusOK (H [("message", JStr "Mensagem enviada com sucesso")]))
  | _ => json_error StatusBadRequest "Mensagem é obrigatória"
  end.

Definition SendMessageHandler (c : Request) : prog Response :=
  ensure_queue (send_message_rest c).

(** [ReceiveMessage] after the guard. *)
Definition receive_message_rest : prog Response :=
  queueURL <- read_field QueueURL ;;
  r <- sdk (ReceiveMessage queueURL 1 20) ;;
  check r "Erro ao receber mensagem: " (fun messages =>
  match messages with
  | [] => JSON StatusOK (H [("message", JStr "Nenhuma mensagem na fila")])
  | m :: _ =>
      queueURL' <- read_field QueueURL ;;
      d <- sdk (DeleteMessage queueURL' (ReceiptHandle m)) ;;
      check d "Erro ao deletar mensagem: " (fun _ =>
      b <- deref (Body m) ;;
      JSON StatusOK (H [("message", JStr b)]))
  end).

Definition ReceiveMessageHandler : prog Response :=
  ensure_queue receive_message_rest.

(** ** The setup guard *)

Definition is_create_queue (c : call) : bool :=
  match c with CreateQueue _ => true | _ => false end.

Definition is_queue_url (f : field) : bool :=
  match f with QueueURL => true | _ => false end.

Definition queue_url (h : Heap) : string := sqs_queueURL (h_sqs h).
Definition queue_name (h : Heap) : string := sqs_queueName (h_sqs h).

(** What the guard leaves in the cache after CreateQueue answered [r]. *)
Definition cached_url (r : result (option string)) : string :=
  match r with Ok (Some u) => u | _ => "" end.

(** The behaviour of the guard in front of a handler body [k] that neither
    creates queues nor writes the cache: on a hit no CreateQueue and the
    cache is kept; on a miss exactly one CreateQueue, for the controller's
    queue name, whose URL is cached. *)
Definition guard_spec {W} `{Backend W} (p : prog Response) (h : Heap) (w : W) : Prop :=
  let fr := run p h w in
  if String.eqb (queue_url h) "" then
    count_calls is_create_queue (f_log fr) = 1 /\
    queue_url (f_heap fr) = cached_url (snd (backend_call w (CreateQueue (queue_name h))))
  else
    count_calls is_create_queue (f_log fr) = 0 /\ queue_url (f_heap fr) = queue_url h.

Lemma guard_spec_miss {W} `{Backend W} p h w :
  guard_spec p h w -> queue_url h = "" ->
  count_calls is_create_queue (f_log (run p h w)) = 1 /\
  queue_url (f_heap (run p h w)) = cached_url (snd (backend_call w (CreateQueue (queue_name h)))).
Proof. unfold guard_spec. intros G E. rewrite E in G. exact G. Qed.

Lemma guard_spec_hit {W} `{Backend W} p h w :
  guard_spec p h w -> queue_url h <> "" ->
  count_calls is_create_queue (f_log (run p h w)) = 0 /\ queue_url (f_heap (run p h w)) = queue_url h.
Proof.
  unfold guard_spec. intros G E. apply String.eqb_neq in E. rewrite E in G. exact G.
Qed.

Section Guard.
Context {W : Type} `{Backend W}.

Lemma ensure_queue_spec k h w :
  footprint is_create_queue is_queue_url k -> guard_spec (ensure_queue k) h w.
Proof.
  intros Hk. unfold guard_spec, ensure_queue, queue_url, queue_name. simpl.
  destruct (String.eqb (sqs_queueURL (h_sqs h)) "") eqn:E; simpl.
  - apply String.eqb_eq in E.
    destruct (backend_call w (CreateQueue (sqs_queueName (h_sqs h)))) as [w1 [[u|]|e]];
      simpl; [|rewrite ?E; auto..].
    destruct (footprint_run _ _ k (store QueueURL u h) w1 Hk) as [Hn Hl].
    simpl in Hn, Hl. rewrite count_calls_cons, Hn. split; [done|]. apply (Hl QueueURL eq_refl).
  - destruct (footprint_run _ _ k h w Hk) as [Hn Hl]. split; [done|].
    apply (Hl QueueURL eq_refl).
Qed.

Lemma send_message_rest_footprint c :
  footprint is_create_queue is_queue_url (send_message_rest c).
Proof. unfold send_message_rest, check, json_error, JSON. solve_footprint. Qed.

Lemma receive_message_rest_footprint :
  footprint is_create_queue is_queue_url receive_message_rest.
Proof. unfold receive_message_rest, check, json_error, JSON. solve_footprint. Qed.

Lemma SendMessage_guard c h w : guard_spec (SendMessageHandler c) h w.
Proof. apply ensure_queue_spec, send_message_rest_footprint. Qed.
End Guard.

(** C3: both SQS handlers run the setup guard correctly: with an empty
    cache they call CreateQueue exactly once, for the controller's queue
    name, and cache the URL it returned; with a filled cache they never
    call CreateQueue and keep the cached URL. *)
Theorem sqs_handlers_setup_guard {W} `{Backend W} c h w :
  guard_spec (SendMessageHandler c) h w /\ guard_spec ReceiveMessageHandler h w.
Proof.
  split; [apply SendMessage_guard|].
  apply ensure_queue_spec, receive_message_rest_footprint.
Qed.

(** C12: when CreateQueue fails, [SendMessage] answers 500 with the wrapped
    error, sends nothing, and leaves the cache empty, so the next request
    retries the setup. *)
Theorem SendMessage_setup_failure {W} `{Backend W} c h w e :
  queue_url h = "" ->
  snd (backend_call w (CreateQueue (queue_name h))) = Err e ->
  let fr := run (SendMessageHandler c) h w in
  f_out fr = Done (error_response StatusInternalServerError (errorf "erro ao criar fila SQS: " e)) /\
  calls_of (f_log fr) = [CreateQueue (queue_name h)] /\
  queue_url (f_heap fr) = "".
Proof.
  intros He Hr. unfold SendMessageHandler, ensure_queue. cbv zeta. simpl.
  unfold queue_url, queue_name in *. rewrite He. simpl.
  destruct (backend_call w (CreateQueue (sqs_queueName (h_sqs h)))) as [w1 r].
  simpl in Hr. subst r. simpl. auto.
Qed.

(** C11: the specification's scenario: two [SendMessage] requests in a row
    on a fresh controller create the queue once, when the first creation
    returns a non-empty URL, and leave that URL in the cache. *)
Theorem SendMessage_twice_creates_once {W} `{Backend W} c1 c2 h w u :
  queue_url h = "" ->
  snd (backend_call w (CreateQueue (queue_name h))) = Ok (Some u) -> u <> "" ->
  let fr1 := run (SendMessageHandler c1) h w in
  let fr2 := run (SendMessageHandler c2) (f_heap fr1) (f_world fr1) in
  count_calls is_create_queue (f_log fr1 ++ f_log fr2) = 1 /\ queue_url (f_heap fr2) = u.
Proof.
  intros He Hr Hu. cbv zeta.
  destruct (guard_spec_miss _ _ _ (SendMessage_guard c1 h w) He) as [N1 U1].
  rewrite Hr in U1. cbn [cached_url] in U1. rewrite <- U1 in Hu.
  destruct (guard_spec_hit _ _ _ (SendMessage_guard c2 _ (f_world (run (SendMessageHandler c1) h w))) Hu)
    as [N2 U2].
  rewrite count_calls_app, N1, N2, U2, U1. auto.
Qed.

(** C23: with the queue URL cached, [ReceiveMessage] long-polls one message
    (at most one, waiting up to 20 s); an empty answer gives 200 "Nenhuma
    mensagem na fila"; a message is deleted by its receipt handle before
    its body is returned, and when the deletion fails the body is not
    returned (the message stays in the queue); a nil body panics. *)
Theorem ReceiveMessage_deletes_before_answering {W} `{Backend W} h w :
  queue_url h <> "" ->
  let u := queue_url h in
  let fr := run ReceiveMessageHandler h w in
  let '(w1, r) := backend_call w (ReceiveMessage u 1 20) in
  f_heap fr = h /\
  match r with
  | Err e =>
      calls_of (f_log fr) = [ReceiveMessage u 1 20] /\
      f_out fr = Done (error_response StatusInternalServerError (errorf "Erro ao receber mensagem: " e))
  | Ok [] =>
      calls_of (f_log fr) = [ReceiveMessage u 1 20] /\
      f_out fr = Done {| status := StatusOK;
                         body := Some (H [("message", JStr "Nenhuma mensagem na fila")]) |}
  | Ok (m :: _) =>
      calls_of (f_log fr) = [ReceiveMessage u 1 20; DeleteMessage u (ReceiptHandle m)] /\
      f_out fr =
        match snd (backend_call w1 (DeleteMessage u (ReceiptHandle m))), Body m with
        | Err e, _ =>
            Done (error_response StatusInternalServerError (errorf "Erro ao deletar mensagem: " e))
        | Ok _, Some b => Done {| status := StatusOK; body := Some (H [("message", JStr b)]) |}
        | Ok _, None => Panicked nil_deref_panic
        end
  end.
Proof.
  intros Hu. unfold queue_url in *. cbv zeta.
  unfold ReceiveMessageHandler, ensure_queue, receive_message_rest. simpl.
  apply String.eqb_neq in Hu. rewrite Hu. simpl.
  destruct (backend_call w (ReceiveMessage _ 1 20)) as [w1 [[|m ms]|e]]; simpl; [done| |done].
  destruct (backend_call w1 (DeleteMessage _ (ReceiptHandle m))) as [w2 [[]|e]]; simpl; [|done].
  by destruct (Body m).
Qed.

(** ** Scenarios *)

(** An emulator whose CreateQueue answers [r] and whose other calls
    succeed. *)
Definition queue_script (r : result (option string)) : nat -> forall c : call, reply_of c :=
  fun _ c =>
    match c as c0 return reply_of c0 with
    | CreateQueue _ => r
    | c0 => default_reply c0
    end.

Definition sqs_heap : Heap :=
  {| h_sqs := NewSQSController; h_sns := {| sns_topicARN := ""; sns_topicName := "" |} |}.

Definition message_request (m : string) : Request :=
  {| req_body := Some [("message", JStr m)]; req_params := []; req_file := None |}.

Lemma SendMessage_setup_failure_witness :
  let fr := @run _ (oracle_backend (queue_script (Err "AccessDenied"))) _
              (SendMessageHandler (message_request "hi")) sqs_heap 0 in
  f_out fr = Done (error_response StatusInternalServerError
                     (errorf "erro ao criar fila SQS: " "AccessDenied")) /\
  calls_of (f_log fr) = [CreateQueue "demo-queue"] /\
  queue_url (f_heap fr) = "".
Proof.
  exact (@SendMessage_setup_failure nat (oracle_backend (queue_script (Err "AccessDenied")))
           (message_request "hi") sqs_heap 0 "AccessDenied" eq_refl eq_refl).
Defined.

Lemma SendMessage_twice_creates_once_witness :
  let B := oracle_backend (queue_script (Ok (Some "http://localhost:4566/q/demo-queue"))) in
  let fr1 := @run _ B _ (SendMessageHandler (message_request "a")) sqs_heap 0 in
  let fr2 := @run _ B _ (SendMessageHandler (message_request "b")) (f_heap fr1) (f_world fr1) in
  count_calls is_create_queue (f_log fr1 ++ f_log fr2) = 1 /\
  queue_url (f_heap fr2) = "http://localhost:4566/q/demo-queue".
Proof.
  exact (@SendMessage_twice_creates_once nat
           (oracle_backend (queue_script (Ok (Some "http://localhost:4566/q/demo-queue"))))
           (message_request "a") (message_request "b") sqs_heap 0
           "http://localhost:4566/q/demo-queue" eq_refl eq_refl ltac:(discriminate)).
Defined.

(** An emulator holding one message whose deletion succeeds. *)
Definition inbox_script (m : Message) : nat -> forall c : call, reply_of c :=
  fun _ c =>
    match c as c0 return reply_of c0 with
    | ReceiveMessage _ _ _ => Ok [m]
    | c0 => default_reply c0
    end.

Definition cached_heap : Heap :=
  {| h_sqs := {| sqs_queueURL := "http://localhost:4566/000000000000/demo-queue";
                 sqs_queueName := "demo-queue" |};
     h_sns := {| sns_topicARN := ""; sns_topicName := "" |} |}.

Lemma ReceiveMessage_deletes_before_answering_witness :
  let m := {| ReceiptHandle := Some "rh-1"; Body := Some "hello" |} in
  let B := oracle_backend (inbox_script m) in
  f_out (@run _ B _ ReceiveMessageHandler cached_heap 0) =
    Done {| status := StatusOK; body := Some (H [("message", JStr "hello")]) |} /\
  calls_of (f_log (@run _ B _ ReceiveMessageHandler cached_heap 0)) =
    [ReceiveMessage (queue_url cached_heap) 1 20; DeleteMessage (queue_url cached_heap) (Some "rh-1")].
Proof.
  intros m B.
  pose proof (@ReceiveMessage_deletes_before_answering nat B cached_heap 0 ltac:(discriminate))
    as Hr.
  cbv zeta in Hr. vm_compute in Hr. destruct Hr as (_ & Hc & Ho). split; [exact Ho | exact Hc].
Defined.
