(* ===== verification/Sns.v ===== *)
(** * The SNS controller (src/controllers/sns_controller.go)

    The controller caches the topic ARN in its field [topicARN].  Each
    handler first runs [if s.topicARN == "" { s.setupTopic() }]: the setup
    creates the topic "demo-topic", stores its ARN in the cache, and then
    subscribes the default e-mail endpoint.  [PublishMessage] publishes,
    [Subscribe] adds a subscription, [ListSubscriptions] lists them.

    The setup writes the cache before its second call: when the default
    subscription fails, the topic is cached anyway and no later request
    runs the setup again, so the default subscription is never created.
    This is proved below. *)

From S2P Require Import Prelude Sdk Prog Gin.

Definition NewSNSController : SNSController :=
  {| sns_topicARN := ""; sns_topicName := "demo-topic" |}.

Definition default_protocol : string := "email".
Definition default_endpoint : string := "test@example.com".

Definition setupTopic : prog (result unit) :=
  topicName <- read_field TopicName ;;
  r <- sdk (CreateTopic topicName) ;;
  match r with
  | Err e => Ret (Err (errorf "erro ao criar tópico SNS: " e))
  | Ok topicArn =>
      a <- deref topicArn ;;
      _ <- write_field TopicARN a ;;
      arn <- read_field TopicARN ;;
      r2 <- sdk (Subscribe arn default_protocol default_endpoint) ;;
      match r2 with
      | Err e => Ret (Err (errorf "erro ao criar inscrição padrão: " e))
      | Ok _ => Ret (Ok tt)
      end
  end.

(** [if s.topicARN == "" { if err := s.setupTopic(); err != nil { 500 } }]
    followed by the rest [k] of the handler. *)
Definition ensure_topic (k : prog Response) : prog Response :=
  topicARN <- read_field TopicARN ;;
  if String.eqb topicARN "" then
    r <- setupTopic ;;
    match r with
    | Err e => json_error StatusInternalServerError e
    | Ok _ => k
    end
  else k.

Definition PublishMessageRequest : list (string * bool) :=
  [("message", true); ("subject", true)].

Definition publish_message_rest (c : Request) : prog Response :=
  match ShouldBindJSON c PublishMessageRequest with
  | Some [message; subject] =>
      arn <- read_field TopicARN ;;
      r <- sdk (Publish arn message subject) ;;
      check r "Erro ao publicar mensagem: " (fun _ =>
      topicName <- read_field TopicName ;;
      JSON StatusOK (H [("message", JStr "Mensagem publicada com sucesso");
                        ("topic", JStr topicName)]))
  | _ => json_error StatusBadRequest "Mensagem e assunto são obrigatórios"
  end.

Definition PublishMessage (c : Request) : prog Response :=
  ensure_topic (publish_message_rest c).

Definition SubscribeRequest : list (string * bool) :=
  [("protocol", true); ("endpoint", true)].

Definition subscribe_rest (c : Request) : prog Response :=
  match ShouldBindJSON c SubscribeRequest with
  | Some [protocol; endpoint] =>
      arn <- read_field TopicARN ;;
      r <- sdk (Subscribe arn protocol endpoint) ;;
      check r "Erro ao criar inscrição: " (fun _ =>
      topicName <- read_field TopicName ;;
      JSON StatusOK (H [("message", JStr "Inscrição criada com sucesso");
                        ("topic", JStr topicName)]))
  | _ => json_error StatusBadRequest "Protocolo e endpoint são obrigatórios"
  end.

(** The method [Subscribe] of [SNSController] (the name is the SDK call's). *)
Definition SubscribeHandler (c : Request) : prog Response :=
  ensure_topic (subscribe_rest c).

Definition list_subscriptions_rest : prog Response :=
  arn <- read_field TopicARN ;;
  r <- sdk (ListSubscriptionsByTopic arn) ;;
  check r "Erro ao listar inscrições: " (fun subs =>
  subscriptions <- mapM (fun sub =>
      e <- deref (sub_Endpoint sub) ;;
      p <- deref (sub_Protocol sub) ;;
      a <- deref (sub_SubscriptionArn sub) ;;
      Ret (JObj [("endpoint", JStr e); ("protocol", JStr p); ("arn", JStr a)])) subs ;;
  topicName <- read_field TopicName ;;
  JSON StatusOK (H [("topic", JStr topicName); ("subscriptions", JArr subscriptions)])).

Definition ListSubscriptions : prog Response :=
  ensure_topic list_subscriptions_rest.

(** ** The setup guard *)

Definition topic_arn (h : Heap) : string := sns_topicARN (h_sns h).
Definition topic_name (h : Heap) : string := sns_topicName (h_sns h).

(** The calls only the setup makes: creating the topic, and the default
    subscription. *)
Definition is_setup_call (c : call) : bool :=
  match c with
  | CreateTopic _ => true
  | Subscribe _ p e => String.eqb p default_protocol && String.eqb e default_endpoint
  | _ => false
  end.

Definition is_topic_arn (f : field) : bool :=
  match f with TopicARN => true | _ => false end.

Definition is_create_topic (c : call) : bool :=
  match c with CreateTopic _ => true | _ => false end.

Section Guard.
Context {W : Type} `{Backend W}.

(** With a cached ARN the guard is skipped: the handler is its rest. *)
Lemma ensure_topic_hit k h w :
  topic_arn h <> "" -> run (ensure_topic k) h w = run k h w.
Proof.
  intros Hne. unfold ensure_topic, topic_arn in *. simpl.
  apply String.eqb_neq in Hne. by rewrite Hne.
Qed.

(** Lifts a footprint of the rest of a handler to the whole handler, on a
    cached ARN. *)
Lemma ensure_topic_hit_footprint bad k h w :
  topic_arn h <> "" -> footprint bad is_topic_arn k ->
  count_calls bad (f_log (run (ensure_topic k) h w)) = 0 /\
  topic_arn (f_heap (run (ensure_topic k) h w)) = topic_arn h.
Proof.
  intros Hne Hk. rewrite ensure_topic_hit by done.
  destruct (footprint_run _ _ k h w Hk) as [Hn Hl]. split; [done|].
  apply (Hl TopicARN eq_refl).
Qed.

Lemma publish_message_rest_footprint c :
  footprint is_setup_call is_topic_arn (publish_message_rest c).
Proof. unfold publish_message_rest, check, json_error, JSON. solve_footprint. Qed.

Lemma list_subscriptions_rest_footprint :
  footprint is_setup_call is_topic_arn list_subscriptions_rest.
Proof. unfold list_subscriptions_rest, check, json_error, JSON. solve_footprint. Qed.

Lemma subscribe_rest_footprint c :
  footprint is_create_topic is_topic_arn (subscribe_rest c).
Proof. unfold subscribe_rest, check, json_error, JSON. solve_footprint. Qed.
End Guard.

(** C9: when the topic is created but its default subscription fails,
    the request answers 500, yet the topic ARN stays cached; from then on
    the guard is skipped and no later [PublishMessage] or
    [ListSubscriptions] request, whatever the emulator's state, creates the
    topic or the default subscription again: the subscription is lost. *)
Theorem sns_default_subscription_lost {W} `{Backend W} c h w w1 arn e :
  topic_arn h = "" ->
  backend_call w (CreateTopic (topic_name h)) = (w1, Ok (Some arn)) -> arn <> "" ->
  snd (backend_call w1 (Subscribe arn default_protocol default_endpoint)) = Err e ->
  let fr := run (PublishMessage c) h w in
  f_out fr = Done (error_response StatusInternalServerError
                     (errorf "erro ao criar inscrição padrão: " e)) /\
  topic_arn (f_heap fr) = arn /\
  (forall c' w', count_calls is_setup_call (f_log (run (PublishMessage c') (f_heap fr) w')) = 0 /\
                 count_calls is_setup_call (f_log (run ListSubscriptions (f_heap fr) w')) = 0).
Proof.
  intros He Hc Ha Hs.
  assert (Hfr : f_out (run (PublishMessage c) h w) =
                  Done (error_response StatusInternalServerError
                          (errorf "erro ao criar inscrição padrão: " e)) /\
                topic_arn (f_heap (run (PublishMessage c) h w)) = arn).
  { unfold PublishMessage, ensure_topic, topic_arn, topic_name in *. simpl.
    rewrite He. simpl. rewrite Hc. simpl.
    destruct (backend_call w1 (Subscribe arn default_protocol default_endpoint)) as [w2 r].
    simpl in Hs. subst r. simpl. auto. }
  destruct Hfr as [Ho Harn]. cbv zeta. split; [done|]. split; [done|].
  intros c' w'. rewrite <- Harn in Ha. split.
  - apply (ensure_topic_hit_footprint _ _ _ _ Ha (publish_message_rest_footprint c')).
  - apply (ensure_topic_hit_footprint _ _ _ _ Ha list_subscriptions_rest_footprint).
Qed.

(** C16: with a cached ARN none of the three SNS handlers creates the
    topic, and the cache keeps its value. *)
Theorem sns_handlers_cache_hit {W} `{Backend W} c h w :
  topic_arn h <> "" ->
  (count_calls is_create_topic (f_log (run (PublishMessage c) h w)) = 0 /\
   topic_arn (f_heap (run (PublishMessage c) h w)) = topic_arn h) /\
  (count_calls is_create_topic (f_log (run (SubscribeHandler c) h w)) = 0 /\
   topic_arn (f_heap (run (SubscribeHandler c) h w)) = topic_arn h) /\
  (count_calls is_create_topic (f_log (run ListSubscriptions h w)) = 0 /\
   topic_arn (f_heap (run ListSubscriptions h w)) = topic_arn h).
Proof.
  intros Hne. split; [|split]; apply ensure_topic_hit_footprint; try done.
  - unfold publish_message_rest, check, json_error, JSON. solve_footprint.
  - apply subscribe_rest_footprint.
  - unfold list_subscriptions_rest, check, json_error, JSON. solve_footprint.
Qed.

(** ** Scenarios *)

(** An emulator that creates the topic and rejects the default
    subscription. *)
Definition topic_script : nat -> forall c : call, reply_of c :=
  fun _ c =>
    match c as c0 return reply_of c0 with
    | CreateTopic _ => Ok (Some "arn:aws:sns:sa-east-1:000000000000:demo-topic")
    | Subscribe _ _ _ => Err "InvalidParameter"
    | c0 => default_reply c0
    end.

Definition sns_heap (arn : string) : Heap :=
  {| h_sqs := {| sqs_queueURL := ""; sqs_queueName := "" |};
     h_sns := {| sns_topicARN := arn; sns_topicName := "demo-topic" |} |}.

Definition publish_request : Request :=
  {| req_body := Some [("message", JStr "hi"); ("subject", JStr "s")];
     req_params := []; req_file := None |}.

Lemma sns_default_subscription_lost_witness :
  let fr := @run _ (oracle_backend topic_script) _ (PublishMessage publish_request)
              (sns_heap "") 0 in
  f_out fr = Done (error_response StatusInternalServerError
                     (errorf "erro ao criar inscrição padrão: " "InvalidParameter")) /\
  topic_arn (f_heap fr) = "arn:aws:sns:sa-east-1:000000000000:demo-topic" /\
  (forall c' w',
     count_calls is_setup_call
       (f_log (@run _ (oracle_backend topic_script) _ (PublishMessage c') (f_heap fr) w')) = 0 /\
     count_calls is_setup_call
       (f_log (@run _ (oracle_backend topic_script) _ ListSubscriptions (f_heap fr) w')) = 0).
Proof.
  exact (@sns_default_subscription_lost nat (oracle_backend topic_script) publish_request
           (sns_heap "") 0 1 "arn:aws:sns:sa-east-1:000000000000:demo-topic" "InvalidParameter"
           eq_refl eq_refl ltac:(discriminate) eq_refl).
Defined.

Lemma sns_handlers_cache_hit_witness :
  let B := oracle_backend topic_script in
  let h := sns_heap "arn:aws:sns:sa-east-1:000000000000:demo-topic" in
  (count_calls is_create_topic (f_log (@run _ B _ (PublishMessage publish_request) h 0)) = 0 /\
   topic_arn (f_heap (@run _ B _ (PublishMessage publish_request) h 0)) = topic_arn h) /\
  (count_calls is_create_topic (f_log (@run _ B _ (SubscribeHandler publish_request) h 0)) = 0 /\
   topic_arn (f_heap (@run _ B _ (SubscribeHandler publish_request) h 0)) = topic_arn h) /\
  (count_calls is_create_topic (f_log (@run _ B _ ListSubscriptions h 0)) = 0 /\
   topic_arn (f_heap (@run _ B _ ListSubscriptions h 0)) = topic_arn h).
Proof.
  exact (@sns_handlers_cache_hit nat (oracle_backend topic_script) publish_request
           (sns_heap "arn:aws:sns:sa-east-1:000000000000:demo-topic") 0 ltac:(discriminate)).
Defined.
