(* ===== verification/S3.v ===== *)
(** * The S3 controller (src/controllers/s3_controller.go)

    [UploadFile] runs [setupBucket] on every request: CreateBucket for
    "demo-bucket", where an error whose text is exactly
    "BucketAlreadyOwnedByYou" counts as success ([isBucketAlreadyExistsError]).
    It then reads the form file and puts it in the bucket.

    Proved here: every upload calls CreateBucket first (there is no cache);
    an "already owned" answer given as that exact text lets the upload go
    on; any other error text, including the SDK's wrapped message that
    contains the code, aborts the upload with a 500. *)

From S2P Require Import Prelude Sdk Prog Gin.

Definition demo_bucket : string := "demo-bucket".

(** [types.BucketLocationConstraintSaEast1]. *)
Definition sa_east_1 : string := "sa-east-1".

Definition BucketAlreadyOwnedByYou : string := "BucketAlreadyOwnedByYou".

(** [isBucketAlreadyExistsError(err)]; [None] is a nil error. *)
Definition isBucketAlreadyExistsError (err : option string) : bool :=
  match err with
  | None => false
  | Some msg => String.eqb msg BucketAlreadyOwnedByYou
  end.

Definition setupBucket : prog (result unit) :=
  r <- sdk (CreateBucket demo_bucket sa_east_1) ;;
  match r with
  | Ok _ => Ret (Ok tt)
  | Err e =>
      if negb (isBucketAlreadyExistsError (Some e))
      then Ret (Err (errorf "erro ao criar bucket S3: " e))
      else Ret (Ok tt)
  end.

Definition uploaded_message (filename : string) : string :=
  "Arquivo " +:+ filename +:+ " enviado com sucesso".

Definition UploadFile (c : Request) : prog Response :=
  r <- setupBucket ;;
  match r with
  | Err e => json_error StatusInternalServerError e
  | Ok _ =>
      match req_file c with
      | None => json_error StatusBadRequest "Arquivo não encontrado no formulário"
      | Some file =>
          match fh_open file with
          | Err _ => json_error StatusInternalServerError "Erro ao abrir arquivo"
          | Ok src =>
              p <- sdk (PutObject demo_bucket (Filename file) src) ;;
              match p with
              | Err e => json_error StatusInternalServerError (errorf "Erro ao fazer upload: " e)
              | Ok _ => JSON StatusOK (H [("message", JStr (uploaded_message (Filename file)))])
              end
          end
      end
  end.

(** ** Properties *)

Definition is_create_bucket (c : call) : bool :=
  match c with CreateBucket _ _ => true | _ => false end.

(** The bucket setup counts as done for these answers of CreateBucket. *)
Definition bucket_ready (r : result unit) : bool :=
  match r with Ok _ => true | Err e => String.eqb e BucketAlreadyOwnedByYou end.

Section Upload.
Context {W : Type} `{Backend W}.

Lemma UploadFile_creates_bucket_once c h w :
  count_calls is_create_bucket (f_log (run (UploadFile c) h w)) = 1 /\
  f_heap (run (UploadFile c) h w) = h.
Proof.
  unfold UploadFile. simpl.
  destruct (backend_call w (CreateBucket demo_bucket sa_east_1)) as [w1 [u|e]]; simpl;
    [|destruct (String.eqb e BucketAlreadyOwnedByYou); simpl; [|done]];
    (destruct (req_file c) as [file|]; simpl; [|done];
     destruct (fh_open file) as [src|]; simpl; [|done];
     destruct (backend_call w1 (PutObject demo_bucket (Filename file) src)) as [w2 [?|?]];
     done).
Qed.
End Upload.

(** C14: [UploadFile] keeps no record of the bucket: every request calls
    CreateBucket again, so two uploads make two creation calls.  (The
    specification asks that a provisioned resource cost no further backend
    call.) *)
Theorem UploadFile_twice_creates_twice {W} `{Backend W} c1 c2 h w :
  let fr1 := run (UploadFile c1) h w in
  let fr2 := run (UploadFile c2) (f_heap fr1) (f_world fr1) in
  count_calls is_create_bucket (f_log fr1 ++ f_log fr2) = 2.
Proof.
  cbv zeta. rewrite count_calls_app.
  rewrite (proj1 (UploadFile_creates_bucket_once c1 h w)).
  rewrite (proj1 (UploadFile_creates_bucket_once c2 _ _)). reflexivity.
Qed.

(** C17: when CreateBucket succeeds or fails with the exact text
    "BucketAlreadyOwnedByYou", the upload goes on: with a file in the form
    that opens, the handler puts it in the bucket under its file name,
    after the one CreateBucket call. *)
Theorem UploadFile_proceeds_when_bucket_ready {W} `{Backend W} c h w file src :
  bucket_ready (snd (backend_call w (CreateBucket demo_bucket sa_east_1))) = true ->
  req_file c = Some file -> fh_open file = Ok src ->
  calls_of (f_log (run (UploadFile c) h w)) =
    [CreateBucket demo_bucket sa_east_1; PutObject demo_bucket (Filename file) src].
Proof.
  intros Hb Hf Ho. unfold UploadFile. simpl.
  destruct (backend_call w (CreateBucket demo_bucket sa_east_1)) as [w1 [u|e]];
    simpl in *; [|rewrite Hb]; simpl; rewrite Hf, Ho; simpl;
    destruct (backend_call w1 (PutObject demo_bucket (Filename file) src)) as [w2 [?|?]];
    done.
Qed.

(** C10: any other CreateBucket error aborts the upload with a 500 that
    wraps the error text, and nothing is uploaded.  The test compares the
    whole text, so an error whose text merely contains the code (as the
    SDK's wrapped errors do) is treated as fatal. *)
Theorem UploadFile_other_bucket_errors_fatal {W} `{Backend W} c h w m :
  snd (backend_call w (CreateBucket demo_bucket sa_east_1)) = Err m ->
  m <> BucketAlreadyOwnedByYou ->
  let fr := run (UploadFile c) h w in
  f_out fr = Done (error_response StatusInternalServerError (errorf "erro ao criar bucket S3: " m)) /\
  calls_of (f_log fr) = [CreateBucket demo_bucket sa_east_1].
Proof.
  intros Hr Hm. apply String.eqb_neq in Hm. unfold UploadFile. cbv zeta. simpl.
  destruct (backend_call w (CreateBucket demo_bucket sa_east_1)) as [w1 r].
  simpl in Hr. subst r. simpl. rewrite Hm. simpl. auto.
Qed.

(** ** Scenarios *)

(** An emulator whose CreateBucket answers [r]. *)
Definition bucket_script (r : result unit) : nat -> forall c : call, reply_of c :=
  fun _ c =>
    match c as c0 return reply_of c0 with
    | CreateBucket _ _ => r
    | c0 => default_reply c0
    end.

Definition s3_heap : Heap :=
  {| h_sqs := {| sqs_queueURL := ""; sqs_queueName := "" |};
     h_sns := {| sns_topicARN := ""; sns_topicName := "" |} |}.

Definition upload_request : Request :=
  {| req_body := None; req_params := [];
     req_file := Some {| Filename := "notes.txt"; fh_open := Ok "hello" |} |}.

(** What the SDK's error text looks like for the "already owned" answer. *)
Definition sdk_already_owned : string :=
  "operation error S3: CreateBucket, https response error StatusCode: 409, "
  +:+ "api error BucketAlreadyOwnedByYou: Your previous request to create the "
  +:+ "named bucket succeeded and you already own it.".

Lemma UploadFile_proceeds_when_bucket_ready_witness :
  calls_of (f_log (@run _ (oracle_backend (bucket_script (Err BucketAlreadyOwnedByYou))) _
                    (UploadFile upload_request) s3_heap 0)) =
    [CreateBucket demo_bucket sa_east_1; PutObject demo_bucket "notes.txt" "hello"].
Proof.
  exact (@UploadFile_proceeds_when_bucket_ready nat
           (oracle_backend (bucket_script (Err BucketAlreadyOwnedByYou)))
           upload_request s3_heap 0 _ "hello" eq_refl eq_refl eq_refl).
Defined.

Lemma UploadFile_other_bucket_errors_fatal_witness :
  let fr := @run _ (oracle_backend (bucket_script (Err sdk_already_owned))) _
              (UploadFile upload_request) s3_heap 0 in
  f_out fr = Done (error_response StatusInternalServerError
                     (errorf "erro ao criar bucket S3: " sdk_already_owned)) /\
  calls_of (f_log fr) = [CreateBucket demo_bucket sa_east_1].
Proof.
  exact (@UploadFile_other_bucket_errors_fatal nat
           (oracle_backend (bucket_script (Err sdk_already_owned)))
           upload_request s3_heap 0 sdk_already_owned eq_refl ltac:(discriminate)).
Defined.
