(* ===== verification/DynamoDB.v ===== *)
(** * The DynamoDB controller (src/controllers/dynamodb_controller.go)

    Every handler first runs [setupTable]: DescribeTable "users"; on any
    error, CreateTable (hash key "id" of type S, 5/5 capacity units) and
    the SDK's TableExists waiter (30 s).  The handlers then create, read,
    update, delete or list users, items whose attributes are all strings;
    reading an item asserts each attribute to [*AttributeValueMemberS],
    which panics when the attribute is missing or of another type.

    The controller is constructed nowhere in [SetupRoutes], so none of its
    handlers is reachable (see [Routes]); it is modelled all the same. *)

From S2P Require Import Prelude Sdk Prog Gin.

Definition users_table : string := "users".

Definition users_table_input : CreateTableInput :=
  {| ct_TableName := users_table;
     ct_AttributeName := "id";
     ct_AttributeType := "S";
     ct_KeyAttributeName := "id";
     ct_KeyType := "HASH";
     ct_ReadCapacityUnits := 5;
     ct_WriteCapacityUnits := 5 |}.

Definition setupTable : prog (result unit) :=
  d <- sdk (DescribeTable users_table) ;;
  match d with
  | Ok _ => Ret (Ok tt)
  | Err _ =>
      r <- sdk (CreateTable users_table_input) ;;
      match r with
      | Err e => Ret (Err (errorf "erro ao criar tabela: " e))
      | Ok _ =>
          wt <- sdk (WaitTableExists users_table 30) ;;
          match wt with
          | Err e => Ret (Err (errorf "erro ao esperar tabela ficar ativa: " e))
          | Ok _ => Ret (Ok tt)
          end
      end
  end.

(** [if err := d.setupTable(); err != nil { c.JSON(500, ...); return }]. *)
Definition with_table (k : prog Response) : prog Response :=
  r <- setupTable ;;
  match r with
  | Err e => json_error StatusInternalServerError e
  | Ok _ => k
  end.

(** The [User] struct: JSON names, [binding:"required"] on three fields. *)
Record User := {
  ID : string; Name : string; Email : string; EmployeeNumber : string; CreatedAt : string }.

Definition UserFields : list (string * bool) :=
  [("id", false); ("name", true); ("email", true); ("employee_number", true);
   ("created_at", false)].

Definition user_json (u : User) : json :=
  JObj [("id", JStr (ID u)); ("name", JStr (Name u)); ("email", JStr (Email u));
        ("employee_number", JStr (EmployeeNumber u)); ("created_at", JStr (CreatedAt u))].

Definition user_item (u : User) : Item :=
  [("id", AttributeValueMemberS (ID u)); ("name", AttributeValueMemberS (Name u)); ("email", AttributeValueMemberS (Email u));
   ("employee_number", AttributeValueMemberS (EmployeeNumber u)); ("created_at", AttributeValueMemberS (CreatedAt u))].

Definition id_key (id : string) : Item := [("id", AttributeValueMemberS id)].

(** The panic of a failed type assertion [item[k].( *types.AttributeValueMemberS)]. *)
Definition assertion_panic : string :=
  "interface conversion: types.AttributeValue is not *types.AttributeValueMemberS".

(** [item[k].( *types.AttributeValueMemberS).Value]. *)
Definition attr_S (item : Item) (k : string) : prog string :=
  match assoc_last k item with
  | Some (AttributeValueMemberS v) => Ret v
  | _ => Panic assertion_panic
  end.

(** The [User{...}] literal read back from an item, fields in order. *)
Definition user_of_item (item : Item) : prog User :=
  i <- attr_S item "id" ;;
  n <- attr_S item "name" ;;
  e <- attr_S item "email" ;;
  en <- attr_S item "employee_number" ;;
  ca <- attr_S item "created_at" ;;
  Ret {| ID := i; Name := n; Email := e; EmployeeNumber := en; CreatedAt := ca |}.

Definition CreateUser (c : Request) : prog Response :=
  with_table (
    match ShouldBindJSON c UserFields with
    | Some [_; name; email; employee; _] =>
        id <- sdk NewUUID ;;
        now <- sdk Now ;;
        let user := {| ID := id; Name := name; Email := email;
                       EmployeeNumber := employee; CreatedAt := now |} in
        r <- sdk (PutItem users_table (user_item user)) ;;
        check r "Erro ao criar usuário: " (fun _ => JSON StatusCreated (user_json user))
    | _ => json_error StatusBadRequest "Dados inválidos"
    end).

Definition GetUser (c : Request) : prog Response :=
  with_table (
    let id := Param c "id" in
    if String.eqb id "" then json_error StatusBadRequest "ID é obrigatório" else
    r <- sdk (GetItem users_table (id_key id)) ;;
    check r "Erro ao buscar usuário: " (fun item =>
    match item with
    | None => json_error StatusNotFound "Usuário não encontrado"
    | Some it => u <- user_of_item it ;; JSON StatusOK (user_json u)
    end)).

Definition update_expression : string :=
  "SET #name = :name, #email = :email, #employee_number = :employee_number".

Definition UpdateUser (c : Request) : prog Response :=
  with_table (
    let id := Param c "id" in
    if String.eqb id "" then json_error StatusBadRequest "ID é obrigatório" else
    match ShouldBindJSON c UserFields with
    | Some [_; name; email; employee; _] =>
        r <- sdk (UpdateItem users_table (id_key id) update_expression
                    [("#name", "name"); ("#email", "email");
                     ("#employee_number", "employee_number")]
                    [(":name", AttributeValueMemberS name); (":email", AttributeValueMemberS email); (":employee_number", AttributeValueMemberS employee)]) ;;
        check r "Erro ao atualizar usuário: " (fun _ =>
        g <- sdk (GetItem users_table (id_key id)) ;;
        check g "Erro ao buscar usuário atualizado: " (fun item =>
        (* [result.Item] is indexed without a nil check: a nil map reads as
           missing attributes *)
        u <- user_of_item (default [] item) ;;
        JSON StatusOK (user_json u)))
    | _ => json_error StatusBadRequest "Dados inválidos"
    end).

Definition DeleteUser (c : Request) : prog Response :=
  with_table (
    let id := Param c "id" in
    if String.eqb id "" then json_error StatusBadRequest "ID é obrigatório" else
    r <- sdk (DeleteItem users_table (id_key id)) ;;
    check r "Erro ao deletar usuário: " (fun _ =>
    JSON StatusOK (H [("message", JStr "Usuário deletado com sucesso")]))).

Definition ListUsers : prog Response :=
  with_table (
    r <- sdk (Scan users_table) ;;
    check r "Erro ao listar usuários: " (fun items =>
    users <- mapM user_of_item items ;;
    JSON StatusOK (JArr (map user_json users)))).

(** ** Properties *)

Section Table.
Context {W : Type} `{Backend W}.

(** Reading back an item that lacks an attribute panics, whatever the
    order in which the assertions meet the gap. *)
Lemma user_of_item_missing it k h w :
  In k ["id"; "name"; "email"; "employee_number"; "created_at"] ->
  assoc_last k it = None ->
  run (user_of_item it) h w = mkFinal (Panicked assertion_panic) h w [].
Proof.
  intros Hk Hn. unfold user_of_item, attr_S.
  destruct Hk as [<-|[<-|[<-|[<-|[<-|[]]]]]];
    repeat (case_match; simpl); try reflexivity; congruence.
Qed.

Lemma user_of_item_pure it h w :
  exists o, run (user_of_item it) h w = mkFinal o h w [] /\
            (o = Panicked assertion_panic \/ exists u, o = Done u).
Proof.
  unfold user_of_item, attr_S. repeat (case_match; simpl); eauto.
Qed.

(** Listing items panics as soon as one of them lacks an attribute. *)
Lemma mapM_user_of_item_missing items it k h w :
  In it items -> In k ["id"; "name"; "email"; "employee_number"; "created_at"] ->
  assoc_last k it = None ->
  run (mapM user_of_item items) h w = mkFinal (Panicked assertion_panic) h w [].
Proof.
  intros Hin Hk Hn. induction items as [|x rest IH]; [done|]. simpl mapM.
  rewrite run_bind. destruct Hin as [->|Hin].
  - rewrite (user_of_item_missing it k h w Hk Hn). reflexivity.
  - destruct (user_of_item_pure x h w) as (o & -> & [->|[u ->]]); [reflexivity|].
    unfold run_then. simpl. rewrite run_bind, (IH Hin). reflexivity.
Qed.
End Table.

(** C18: [setupTable] on every branch: a successful DescribeTable ends it;
    any DescribeTable error, whatever its cause, is taken for a missing
    table and leads to CreateTable and, if that succeeds, to the
    TableExists waiter; errors are wrapped with the step's message. *)
Theorem setupTable_branches {W} `{Backend W} h w :
  let fr := run setupTable h w in
  let '(w1, d) := backend_call w (DescribeTable users_table) in
  let '(w2, r) := backend_call w1 (CreateTable users_table_input) in
  let '(_, wt) := backend_call w2 (WaitTableExists users_table 30) in
  f_heap fr = h /\
  match d with
  | Ok _ => calls_of (f_log fr) = [DescribeTable users_table] /\ f_out fr = Done (Ok tt)
  | Err _ =>
      match r with
      | Err e => calls_of (f_log fr) = [DescribeTable users_table; CreateTable users_table_input] /\
                 f_out fr = Done (Err (errorf "erro ao criar tabela: " e))
      | Ok _ =>
          calls_of (f_log fr) =
            [DescribeTable users_table; CreateTable users_table_input;
             WaitTableExists users_table 30] /\
          f_out fr = Done (match wt with
                           | Ok _ => Ok tt
                           | Err e => Err (errorf "erro ao esperar tabela ficar ativa: " e)
                           end)
      end
  end.
Proof.
  unfold setupTable. simpl.
  destruct (backend_call w (DescribeTable users_table)) as [w1 [u|e1]]; simpl.
  - destruct (backend_call w1 (CreateTable users_table_input)) as [w2 r].
    destruct (backend_call w2 (WaitTableExists users_table 30)). auto.
  - destruct (backend_call w1 (CreateTable users_table_input)) as [w2 [u|e2]]; simpl;
      destruct (backend_call w2 (WaitTableExists users_table 30)) as [w3 [?|?]]; simpl; auto.
Qed.

(** C19: [UpdateUser] writes before it reads back: when the item read back
    lacks an attribute (as the upsert of UpdateItem leaves it for an id
    that did not exist, with no "created_at"), the handler panics and
    gin answers a bare 500, although the update was made. *)
Theorem UpdateUser_partial_item_panics {W} `{Backend W} c h w w1 w2 id i n e en ca it k :
  Param c "id" = id -> id <> "" ->
  ShouldBindJSON c UserFields = Some [i; n; e; en; ca] ->
  backend_call w (DescribeTable users_table) = (w1, Ok tt) ->
  backend_call w1 (UpdateItem users_table (id_key id) update_expression
      [("#name", "name"); ("#email", "email"); ("#employee_number", "employee_number")]
      [(":name", AttributeValueMemberS n); (":email", AttributeValueMemberS e);
       (":employee_number", AttributeValueMemberS en)]) = (w2, Ok tt) ->
  snd (backend_call w2 (GetItem users_table (id_key id))) = Ok (Some it) ->
  In k ["id"; "name"; "email"; "employee_number"; "created_at"] -> assoc_last k it = None ->
  let fr := run (UpdateUser c) h w in
  f_out fr = Panicked assertion_panic /\
  recovery (f_out fr) = {| status := StatusInternalServerError; body := None |} /\
  count_calls (fun c => if c is UpdateItem _ _ _ _ _ then true else false) (f_log fr) = 1.
Proof.
  intros Hid Hne Hb Hd Hu Hg Hk Hn.
  unfold UpdateUser, with_table, setupTable. cbv zeta. simpl. rewrite Hd. simpl.
  rewrite Hid. apply String.eqb_neq in Hne. rewrite Hne, Hb. simpl. rewrite Hu. simpl.
  destruct (backend_call w2 (GetItem users_table (id_key id))) as [w3 g].
  simpl in Hg. subst g. cbn [check default]. rewrite run_bind.
  rewrite (user_of_item_missing it k h w3 Hk Hn). simpl. auto.
Qed.

(** C20: once the table holds an item that lacks an attribute, every
    [ListUsers] request panics: the listing reads every item back. *)
Theorem ListUsers_partial_item_panics {W} `{Backend W} h w w1 items it k :
  backend_call w (DescribeTable users_table) = (w1, Ok tt) ->
  snd (backend_call w1 (Scan users_table)) = Ok items ->
  In it items ->
  In k ["id"; "name"; "email"; "employee_number"; "created_at"] -> assoc_last k it = None ->
  f_out (run ListUsers h w) = Panicked assertion_panic.
Proof.
  intros Hd Hs Hin Hk Hn. unfold ListUsers, with_table, setupTable. simpl. rewrite Hd. simpl.
  destruct (backend_call w1 (Scan users_table)) as [w2 r]. simpl in Hs. subst r. simpl.
  rewrite run_bind, (mapM_user_of_item_missing items it k h w2 Hin Hk Hn). reflexivity.
Qed.

(** C24: with the table in place and a body that binds, [CreateUser]
    ignores the client's "id" and "created_at": it takes a fresh UUID and
    the current time, writes the item of that user, and answers 201 with
    exactly the user it wrote (500 with the wrapped message if PutItem
    fails). *)
Theorem CreateUser_returns_stored_user {W} `{Backend W} c h w w1 i n e en ca :
  ShouldBindJSON c UserFields = Some [i; n; e; en; ca] ->
  backend_call w (DescribeTable users_table) = (w1, Ok tt) ->
  let '(w2, id) := backend_call w1 NewUUID in
  let '(w3, now) := backend_call w2 Now in
  let u := {| ID := id; Name := n; Email := e; EmployeeNumber := en; CreatedAt := now |} in
  let fr := run (CreateUser c) h w in
  calls_of (f_log fr) = [DescribeTable users_table; NewUUID; Now; PutItem users_table (user_item u)] /\
  f_out fr =
    match snd (backend_call w3 (PutItem users_table (user_item u))) with
    | Ok _ => Done {| status := StatusCreated; body := Some (user_json u) |}
    | Err err => Done (error_response StatusInternalServerError (errorf "Erro ao criar usuário: " err))
    end.
Proof.
  intros Hb Hd. unfold CreateUser, with_table, setupTable. simpl. rewrite Hd. simpl.
  rewrite Hb. simpl.
  destruct (backend_call w1 NewUUID) as [w2 id]. simpl.
  destruct (backend_call w2 Now) as [w3 now]. simpl.
  destruct (backend_call w3 (PutItem _ _)) as [w4 [?|?]]; done.
Qed.

(** C25: reading back the item [CreateUser] writes for a user gives that
    user again, with no call and no panic: [user_of_item] inverts
    [user_item]. *)
Theorem user_item_roundtrip {W} `{Backend W} u h w :
  run (user_of_item (user_item u)) h w = mkFinal (Done u) h w [].
Proof. by destruct u. Qed.

(** ** Scenarios *)

(** The item UpdateItem leaves for an id that did not exist: the updated
    attributes and the key, no "created_at". *)
Definition upserted_item : Item :=
  [("id", AttributeValueMemberS "u1"); ("name", AttributeValueMemberS "Ana");
   ("email", AttributeValueMemberS "ana@example.com");
   ("employee_number", AttributeValueMemberS "42")].

Definition table_script : nat -> forall c : call, reply_of c :=
  fun _ c =>
    match c as c0 return reply_of c0 with
    | GetItem _ _ => Ok (Some upserted_item)
    | Scan _ => Ok [upserted_item]
    | c0 => default_reply c0
    end.

Definition dynamo_heap : Heap :=
  {| h_sqs := {| sqs_queueURL := ""; sqs_queueName := "" |};
     h_sns := {| sns_topicARN := ""; sns_topicName := "" |} |}.

Definition update_request : Request :=
  {| req_body := Some [("name", JStr "Ana"); ("email", JStr "ana@example.com");
                       ("employee_number", JStr "42")];
     req_params := [("id", "u1")]; req_file := None |}.

Lemma UpdateUser_partial_item_panics_witness :
  let fr := @run _ (oracle_backend table_script) _ (UpdateUser update_request) dynamo_heap 0 in
  f_out fr = Panicked assertion_panic /\
  recovery (f_out fr) = {| status := StatusInternalServerError; body := None |} /\
  count_calls (fun c => if c is UpdateItem _ _ _ _ _ then true else false) (f_log fr) = 1.
Proof.
  exact (@UpdateUser_partial_item_panics nat (oracle_backend table_script) update_request
           dynamo_heap 0 1 2 "u1" "" "Ana" "ana@example.com" "42" "" upserted_item "created_at"
           eq_refl ltac:(discriminate) eq_refl eq_refl eq_refl eq_refl
           ltac:(simpl; tauto) eq_refl).
Defined.

Lemma ListUsers_partial_item_panics_witness :
  f_out (@run _ (oracle_backend table_script) _ ListUsers dynamo_heap 0) = Panicked assertion_panic.
Proof.
  exact (@ListUsers_partial_item_panics nat (oracle_backend table_script) dynamo_heap 0 1
           [upserted_item] upserted_item "created_at" eq_refl eq_refl
           ltac:(simpl; tauto) ltac:(simpl; tauto) eq_refl).
Defined.

Definition create_request : Request :=
  {| req_body := Some [("id", JStr "ignored"); ("name", JStr "Ana");
                       ("email", JStr "ana@example.com"); ("employee_number", JStr "42")];
     req_params := []; req_file := None |}.

(** An emulator whose table exists, with a fixed UUID and clock. *)
Definition clock_script : nat -> forall c : call, reply_of c :=
  fun _ c =>
    match c as c0 return reply_of c0 with
    | NewUUID => "6f1c"
    | Now => "2024-01-01T00:00:00Z"
    | c0 => default_reply c0
    end.

Lemma CreateUser_returns_stored_user_witness :
  let B := oracle_backend clock_script in
  let u := {| ID := "6f1c"; Name := "Ana"; Email := "ana@example.com"; EmployeeNumber := "42";
              CreatedAt := "2024-01-01T00:00:00Z" |} in
  f_out (@run _ B _ (CreateUser create_request) dynamo_heap 0) =
    Done {| status := StatusCreated; body := Some (user_json u) |}.
Proof.
  intros B u.
  pose proof (@CreateUser_returns_stored_user nat B create_request dynamo_heap 0 1
                "ignored" "Ana" "ana@example.com" "42" "" eq_refl eq_refl) as Hc.
  vm_compute in Hc. destruct Hc as [_ Ho]. exact Ho.
Defined.
