(* ===== verification/Routes.v ===== *)
(** * Routing and start-up (src/routes/routes.go, src/main.go, src/config/aws_config.go)

    [SetupRoutes] builds one controller per service and registers eleven
    routes in five groups.  gin's router matches a request's method and
    path against the registered patterns segment by segment; a segment
    [:name] matches one non-empty segment and binds it as a path
    parameter.  An unmatched request gets gin's 404.  [main] loads the SDK
    configuration ([GetAWSConfig]), exits on error, and serves on :6000.

    Proved here: the DynamoDB handlers are registered under no route, and
    a request routed to [InvokeFunction] always carries a non-empty name,
    so the handler's "name required" branch is dead. *)

From S2P Require Import Prelude Sdk Prog Gin Lambda ApiGateway Sqs Sns S3 DynamoDB.

(** The handlers of the controllers. *)
Inductive handler : Type :=
| UploadFileH
| SendMessageH | ReceiveMessageH
| PublishMessageH | SubscribeH | ListSubscriptionsH
| CreateAPIH | ListAPIsH
| CreateFunctionH | ListFunctionsH | InvokeFunctionH
| CreateUserH | GetUserH | UpdateUserH | DeleteUserH | ListUsersH.

#[export] Instance handler_eq_dec : EqDecision handler.
Proof. solve_decision. Defined.

Definition handler_prog (hd : handler) (c : Request) : prog Response :=
  match hd with
  | UploadFileH => UploadFile c
  | SendMessageH => SendMessageHandler c
  | ReceiveMessageH => ReceiveMessageHandler
  | PublishMessageH => PublishMessage c
  | SubscribeH => SubscribeHandler c
  | ListSubscriptionsH => ListSubscriptions
  | CreateAPIH => CreateAPI c
  | ListAPIsH => ListAPIs
  | CreateFunctionH => CreateFunctionHandler c
  | ListFunctionsH => ListFunctionsHandler
  | InvokeFunctionH => InvokeFunction c
  | CreateUserH => CreateUser c
  | GetUserH => GetUser c
  | UpdateUserH => UpdateUser c
  | DeleteUserH => DeleteUser c
  | ListUsersH => ListUsers
  end.

Definition is_dynamodb_handler (hd : handler) : bool :=
  match hd with
  | CreateUserH | GetUserH | UpdateUserH | DeleteUserH | ListUsersH => true
  | _ => false
  end.

Record route := { r_method : string; r_path : string; r_handler : handler }.

(** [g := r.Group(prefix); g.METHOD(path, h)]: the full pattern is the
    prefix followed by the path. *)
Definition group (prefix : string) (rs : list (string * string * handler)) : list route :=
  map (fun '(m, p, hd) => {| r_method := m; r_path := prefix +:+ p; r_handler := hd |}) rs.

Definition SetupRoutes : list route :=
  group "/s3" [("POST", "/upload", UploadFileH)] ++
  group "/sqs" [("POST", "/send", SendMessageH); ("GET", "/receive", ReceiveMessageH)] ++
  group "/sns" [("POST", "/publish", PublishMessageH); ("POST", "/subscribe", SubscribeH);
                ("GET", "/subscriptions", ListSubscriptionsH)] ++
  group "/api-gateway" [("POST", "/create", CreateAPIH); ("GET", "/list", ListAPIsH)] ++
  group "/lambda" [("POST", "/create", CreateFunctionH); ("GET", "/list", ListFunctionsH);
                   ("POST", "/invoke/:name", InvokeFunctionH)].

(** The controllers' fields right after [SetupRoutes]. *)
Definition initial_heap : Heap := {| h_sqs := NewSQSController; h_sns := NewSNSController |}.

(** ** Path matching *)

Definition slash : Ascii.ascii := Ascii.ascii_of_nat 47.
Definition colon : Ascii.ascii := Ascii.ascii_of_nat 58.

(** The segments of a path, split at each "/" (a leading "/" gives a
    first empty segment). *)
Fixpoint split_path (p : string) : list string :=
  match p with
  | EmptyString => [""]
  | String ch rest =>
      match split_path rest with
      | [] => [String ch EmptyString]
      | seg :: segs =>
          if Ascii.eqb ch slash then "" :: seg :: segs else String ch seg :: segs
      end
  end.

(** A pattern segment [:name] names a parameter. *)
Definition param_name (seg : string) : option string :=
  match seg with
  | String ch name => if Ascii.eqb ch colon then Some name else None
  | EmptyString => None
  end.

Fixpoint match_segments (pat segs : list string) : option (list (string * string)) :=
  match pat, segs with
  | [], [] => Some []
  | p :: ps, s :: ss =>
      match param_name p with
      | Some name =>
          if String.eqb s "" then None
          else option_map (cons (name, s)) (match_segments ps ss)
      | None => if String.eqb p s then match_segments ps ss else None
      end
  | _, _ => None
  end.

(** The first route whose method and pattern match, with the bound path
    parameters. *)
Fixpoint dispatch (rs : list route) (method path : string) : option (handler * list (string * string)) :=
  match rs with
  | [] => None
  | r :: rest =>
      if String.eqb (r_method r) method then
        match match_segments (split_path (r_path r)) (split_path path) with
        | Some ps => Some (r_handler r, ps)
        | None => dispatch rest method path
        end
      else dispatch rest method path
  end.

Definition not_found : Response :=
  {| status := StatusNotFound; body := Some (JStr "404 page not found") |}.

(** The engine serving one request: route it, set its path parameters, run
    the handler. *)
Definition serve (method path : string) (c : Request) : prog Response :=
  match dispatch SetupRoutes method path with
  | None => Ret not_found
  | Some (hd, ps) =>
      handler_prog hd {| req_body := req_body c; req_params := ps; req_file := req_file c |}
  end.

(** ** Start-up *)

Definition aws_endpoint : string := "http://localhost:4566".
Definition aws_region : string := "sa-east-1".

Definition GetAWSConfig : prog (result unit) :=
  r <- sdk (LoadDefaultConfig aws_region aws_endpoint aws_region "test" "test") ;;
  match r with
  | Err e => Ret (Err (errorf "erro ao carregar configuração: " e))
  | Ok cfg => Ret (Ok cfg)
  end.

Inductive main_outcome : Type :=
| Fatal (msg : string)                        (** [log.Fatalf]: exit status 1 *)
| Serving (addr : string) (routes : list route).

Definition main : prog main_outcome :=
  r <- GetAWSConfig ;;
  match r with
  | Err e => Ret (Fatal (errorf "Erro ao carregar configuração AWS: " e))
  | Ok _ => Ret (Serving ":6000" SetupRoutes)
  end.

(** ** Properties *)

Lemma dispatch_route rs m p hd ps :
  dispatch rs m p = Some (hd, ps) ->
  exists r, In r rs /\ r_handler r = hd /\
            match_segments (split_path (r_path r)) (split_path p) = Some ps.
Proof.
  induction rs as [|r rest IH]; simpl; [discriminate|].
  destruct (String.eqb (r_method r) m).
  - destruct (match_segments _ _) eqn:E.
    + intros Heq. injection Heq as <- <-. exists r. auto.
    + intros Hd. destruct (IH Hd) as (r' & ? & ? & ?). exists r'. auto.
  - intros Hd. destruct (IH Hd) as (r' & ? & ? & ?). exists r'. auto.
Qed.

#[local] Arguments String.eqb : simpl never.

(** The pattern of the only route to [InvokeFunction] binds one non-empty
    segment as "name". *)
Lemma match_invoke_pattern segs ps :
  match_segments (split_path ("/lambda" +:+ "/invoke/:name")) segs = Some ps ->
  exists s, s <> "" /\ ps = [("name", s)].
Proof.
  change (split_path ("/lambda" +:+ "/invoke/:name")) with [""; "lambda"; "invoke"; ":name"].
  intros Hm. destruct segs as [|s0 [|s1 [|s2 [|s3 [|s4 segs]]]]]; simpl in Hm;
    repeat match type of Hm with context [String.eqb ?a ?b] => destruct (String.eqb_spec a b) end;
    try discriminate.
  injection Hm as <-. eauto.
Qed.

(** C21: no request reaches the DynamoDB controller: [SetupRoutes] builds
    no DynamoDB controller and registers none of its handlers. *)
Theorem dynamodb_handlers_unreachable m p hd ps :
  dispatch SetupRoutes m p = Some (hd, ps) -> is_dynamodb_handler hd = false.
Proof.
  intros Hd. destruct (dispatch_route _ _ _ _ _ Hd) as (r & Hin & <- & _).
  repeat (destruct Hin as [<-|Hin]; [reflexivity|]). destruct Hin.
Qed.

(** C28: a request routed to [InvokeFunction] always carries a non-empty
    name, so the handler never answers "Nome da função é obrigatório":
    it goes straight to the readiness loop. *)
Theorem routed_invoke_polls_at_once {W} `{Backend W} m p c ps h w :
  dispatch SetupRoutes m p = Some (InvokeFunctionH, ps) ->
  let c' := {| req_body := req_body c; req_params := ps; req_file := req_file c |} in
  Param c' "name" <> "" /\
  run (serve m p c) h w =
    run_then (run (poll_state (Param c' "name") max_attempts "") h w)
             (after_poll (Param c' "name")).
Proof.
  intros Hd. cbv zeta. unfold serve. rewrite Hd. simpl handler_prog.
  destruct (dispatch_route _ _ _ _ _ Hd) as (r & Hin & Hh & Hm).
  repeat (destruct Hin as [<-|Hin]; [discriminate Hh|]).
  destruct Hin as [<-|[]].
  destruct (match_invoke_pattern _ _ Hm) as (s & Hs & ->).
  unfold Param. simpl. split; [done|].
  rewrite run_InvokeFunction. unfold Param. simpl.
  destruct (String.eqb_spec s "") as [E|]; [done|]. reflexivity.
Qed.

(** ** Scenarios *)

Lemma dynamodb_handlers_unreachable_witness :
  dispatch SetupRoutes "POST" "/lambda/invoke/demo" = Some (InvokeFunctionH, [("name", "demo")]) /\
  is_dynamodb_handler InvokeFunctionH = false.
Proof.
  split; [vm_compute; reflexivity|].
  exact (dynamodb_handlers_unreachable "POST" "/lambda/invoke/demo" InvokeFunctionH
           [("name", "demo")] ltac:(vm_compute; reflexivity)).
Defined.

Definition empty_request : Request := {| req_body := None; req_params := []; req_file := None |}.

Lemma routed_invoke_polls_at_once_witness :
  let c' := {| req_body := req_body empty_request; req_params := [("name", "demo")];
               req_file := req_file empty_request |} in
  Param c' "name" <> "" /\
  @run _ (oracle_backend (fun _ => default_reply)) _
    (serve "POST" "/lambda/invoke/demo" empty_request) initial_heap 0 =
  @run_then _ (oracle_backend (fun _ => default_reply)) _ _
           (@run _ (oracle_backend (fun _ => default_reply)) _
              (poll_state (Param c' "name") max_attempts "") initial_heap 0)
           (after_poll (Param c' "name")).
Proof.
  exact (@routed_invoke_polls_at_once nat (oracle_backend (fun _ => default_reply))
           "POST" "/lambda/invoke/demo" empty_request [("name", "demo")] initial_heap 0
           ltac:(vm_compute; reflexivity)).
Defined.
