(* ===== verification/LambdaFunction.v ===== *)
(** * The deployed function (src/lambda/main.go)

    [HandleRequest] answers a request [{"message": m}] with
    [{"message": "Processed: " + m}] and no error.  [main] hands it to the
    Lambda runtime, which is not modelled.  The function is a single
    string concatenation; it is modelled for completeness of the map and
    carries no property of its own. *)

From S2P Require Import Prelude.

Record Request := { Message : string }.
Record Response := { ResponseMessage : string }.

Definition processed_prefix : string := "Processed: ".

(** [HandleRequest(ctx, request) (Response, error)]; [None] is a nil error. *)
Definition HandleRequest (request : Request) : Response * option string :=
  ({| ResponseMessage := processed_prefix +:+ Message request |}, None).
