(* ===== verification/Concurrency.v ===== *)
(** * Concurrent requests (gin's goroutine per request, src/routes/routes.go)

    gin serves every request on its own goroutine, and all of them share
    the controllers that [SetupRoutes] built once: the [queueURL] and
    [topicARN] caches are read and written without a lock.  A configuration
    is the pool of running handlers (one program per request), the shared
    fields, the backend and the log; a [step] runs one primitive action of
    one thread.  This is the sequentially consistent interleaving of the
    handlers, so every execution it allows is an execution of the Go
    program.

    Proved here: a single thread steps exactly as [run] computes; two
    concurrent [/sqs/send] requests can both call CreateQueue, for every
    backend (the specification's exactly-once setup does not hold under
    concurrency); at most one CreateQueue per routed SQS request is made in
    any interleaving; no interleaving changes the queue or topic names. *)

From stdpp Require Import relations.
From S2P Require Import Prelude Sdk Prog Gin Lambda ApiGateway Sqs Sns S3 DynamoDB Routes.

Section Interleaving.
Context {W : Type} `{Backend W}.

Record config := mkConfig {
  threads : list (prog Response); c_heap : Heap; c_world : W; c_log : list event }.

(** One action of thread [i]: a call to the backend, a read or a write of
    a shared field.  A returned or panicked thread takes no more steps (gin
    recovers the panic of its request). *)
Inductive step : config -> config -> Prop :=
| step_call i c k ts h w l :
    ts !! i = Some (Call c k) ->
    step (mkConfig ts h w l)
         (mkConfig (<[i := k (snd (backend_call w c))]> ts) h (fst (backend_call w c))
                   (l ++ [c ↦ snd (backend_call w c)]))
| step_load i f k ts h w l :
    ts !! i = Some (Load f k) ->
    step (mkConfig ts h w l) (mkConfig (<[i := k (load f h)]> ts) h w l)
| step_store i f v k ts h w l :
    ts !! i = Some (Store f v k) ->
    step (mkConfig ts h w l) (mkConfig (<[i := k]> ts) (store f v h) w l).

(** The program a finished thread is left as. *)
Definition prog_of_outcome {R} (o : outcome R) : prog R :=
  match o with Done r => Ret r | Panicked m => Panic m end.

(** A thread that returned or panicked. *)
Definition finished {R} (p : prog R) : bool :=
  match p with Ret _ | Panic _ => true | _ => false end.

End Interleaving.

Arguments config W : clear implicits.

Section Steps.
Context {W : Type} `{Backend W}.

(** A thread run alone, the others waiting, does what [run] computes. *)
Lemma run_steps (p : prog Response) ts i h w l :
  ts !! i = Some p ->
  let fr := run p h w in
  rtc step (mkConfig ts h w l)
           (mkConfig (<[i := prog_of_outcome (f_out fr)]> ts) (f_heap fr) (f_world fr)
                     (l ++ f_log fr)).
Proof.
  revert ts h w l. induction p as [r|c k IH|f k IH|f v k IH|m]; intros ts h w l Hi; cbn zeta.
  - simpl. rewrite app_nil_r, list_insert_id by done. apply rtc_refl.
  - pose proof (lookup_lt_Some _ _ _ Hi) as Hlt. simpl.
    destruct (backend_call w c) as [w1 x] eqn:E. simpl.
    eapply rtc_l; [by apply step_call|]. rewrite E. simpl.
    specialize (IH x (<[i:=k x]> ts) h w1 (l ++ [c ↦ x]) ltac:(by rewrite list_lookup_insert_eq)).
    cbn zeta in IH. by rewrite list_insert_insert_eq, <- app_assoc in IH.
  - pose proof (lookup_lt_Some _ _ _ Hi) as Hlt. simpl.
    eapply rtc_l; [by apply step_load|].
    specialize (IH (load f h) (<[i:=k (load f h)]> ts) h w l ltac:(by rewrite list_lookup_insert_eq)).
    cbn zeta in IH. by rewrite list_insert_insert_eq in IH.
  - pose proof (lookup_lt_Some _ _ _ Hi) as Hlt. simpl.
    eapply rtc_l; [by apply step_store|].
    specialize (IH (<[i:=k]> ts) (store f v h) w l ltac:(by rewrite list_lookup_insert_eq)).
    cbn zeta in IH. by rewrite list_insert_insert_eq in IH.
  - simpl. rewrite app_nil_r, list_insert_id by done. apply rtc_refl.
Qed.

End Steps.

(** ** What each handler may call and write *)

Definition is_sqs_handler (hd : handler) : bool :=
  match hd with SendMessageH | ReceiveMessageH => true | _ => false end.

Lemma poll_state_footprint bad guarded name n prev :
  bad (GetFunction name) = false -> bad (Sleep 1) = false ->
  footprint bad guarded (poll_state name n prev).
Proof.
  intros Hg Hs. revert prev. induction n as [|n IH]; intros prev; simpl;
    solve_footprint; apply IH.
Qed.

Ltac unfold_handler :=
  unfold UploadFile, setupBucket, SendMessageHandler, ReceiveMessageHandler, ensure_queue,
    setupQueue, send_message_rest, receive_message_rest, PublishMessage, SubscribeHandler,
    ListSubscriptions, ensure_topic, setupTopic, publish_message_rest, subscribe_rest,
    list_subscriptions_rest, CreateAPI, ListAPIs, CreateFunctionHandler, ListFunctionsHandler,
    InvokeFunction, after_poll, CreateUser, GetUser, UpdateUser, DeleteUser, ListUsers,
    with_table, setupTable, user_of_item, attr_S, check, json_error, JSON.

Lemma handler_footprint_try hd c :
  is_sqs_handler hd = false -> footprint is_create_queue (fun _ => false) (handler_prog hd c).
Proof.
  intros Hs. destruct hd; try discriminate Hs; simpl; unfold_handler;
    repeat first [apply footprint_bind | apply poll_state_footprint; done | progress solve_footprint].
Qed.

Lemma sum_list_insert (l : list nat) i n m :
  l !! i = Some n -> sum_list (<[i := m]> l) + n = sum_list l + m.
Proof.
  revert i. induction l as [|x l IH]; intros [|i] Hi; simpl in *; try discriminate.
  - injection Hi as ->. lia.
  - specialize (IH i Hi). lia.
Qed.

Section Budget.
Context {W : Type} `{Backend W}.
Variable bad : call -> bool.

(** The calls satisfying [bad] made so far, plus what each running thread
    may still make, stay within [N]. *)
Definition within_budget (N : nat) (cfg : config W) : Prop :=
  exists ns, Forall2 (calls_le bad) ns (threads cfg) /\
             count_calls bad (c_log cfg) + sum_list ns <= N.

Lemma within_budget_step N cfg cfg' :
  within_budget N cfg -> step cfg cfg' -> within_budget N cfg'.
Proof.
  intros (ns & Hf & Hn) Hs.
  destruct Hs as [i c k ts h w l Hi|i f k ts h w l Hi|i f v k ts h w l Hi]; simpl in *;
    destruct (Forall2_lookup_r _ _ _ _ _ Hf Hi) as (n & Hni & Hp).
  - apply calls_le_call_inv in Hp as [Hpos Hk].
    exists (<[i := budget_after bad c n]> ns). split; [by apply Forall2_insert|].
    pose proof (sum_list_insert ns i n (budget_after bad c n) Hni).
    cbn [c_log]. rewrite count_calls_app. unfold count_calls at 2. simpl. unfold budget_after in *.
    destruct (bad c); [specialize (Hpos eq_refl)|]; simpl; lia.
  - exists ns. split; [|done].
    rewrite <- (list_insert_id ns i n) by done.
    apply Forall2_insert; [done|]. by eapply calls_le_load_inv.
  - exists ns. split; [|done].
    rewrite <- (list_insert_id ns i n) by done.
    apply Forall2_insert; [done|]. by eapply calls_le_store_inv.
Qed.

Lemma within_budget_rtc N cfg cfg' :
  within_budget N cfg -> rtc step cfg cfg' -> within_budget N cfg'.
Proof. intros Hb Hr. induction Hr; eauto using within_budget_step. Qed.

Lemma within_budget_count N cfg : within_budget N cfg -> count_calls bad (c_log cfg) <= N.
Proof. intros (ns & _ & Hn). lia. Qed.
End Budget.

(** ** Requests served concurrently *)

(** A request as the router sees it: method, path and the rest. *)
Definition http_request : Type := string * string * Request.

Definition serve_request (r : http_request) : prog Response :=
  let '(m, p, c) := r in serve m p c.

(** The request is routed to one of the two SQS handlers. *)
Definition routed_to_sqs (r : http_request) : bool :=
  let '(m, p, _) := r in
  match dispatch SetupRoutes m p with Some (hd, _) => is_sqs_handler hd | None => false end.

Definition sqs_requests (rs : list http_request) : nat := length (List.filter routed_to_sqs rs).

Lemma setupQueue_calls_le : calls_le is_create_queue 1 setupQueue.
Proof.
  unfold setupQueue, read_field, sdk. simpl. constructor. intros n.
  apply cl_bad; [done|]. intros r. eapply footprint_calls_le with (guarded := fun _ => false).
  solve_footprint.
Qed.

Lemma ensure_queue_calls_le k :
  calls_le is_create_queue 0 k -> calls_le is_create_queue 1 (ensure_queue k).
Proof.
  intros Hk. unfold ensure_queue. change 1 with (0 + 1). apply calls_le_bind.
  { unfold read_field. auto with localstack. }
  assert (Hs : calls_le is_create_queue 1
    (r <- setupQueue ;;
     match r with Err e => json_error StatusInternalServerError e | Ok _ => k end)).
  { change 1 with (1 + 0). apply calls_le_bind; [apply setupQueue_calls_le|].
    intros [?|e]; [done|]. unfold json_error, JSON. auto with localstack. }
  assert (Hk1 : calls_le is_create_queue 1 k) by (eapply calls_le_mono; [exact Hk|lia]).
  intros u. first [assumption | case_match; assumption].
Qed.

Lemma serve_calls_le r :
  calls_le is_create_queue (if routed_to_sqs r then 1 else 0) (serve_request r).
Proof.
  destruct r as [[m p] c]. unfold routed_to_sqs, serve_request, serve.
  destruct (dispatch SetupRoutes m p) as [[hd ps]|]; [|constructor].
  destruct (is_sqs_handler hd) eqn:E.
  - destruct hd; try discriminate E; simpl;
      first [ apply ensure_queue_calls_le; eapply footprint_calls_le;
              first [apply send_message_rest_footprint | apply receive_message_rest_footprint]
            | apply (footprint_calls_le _ (fun _ => false)); unfold_handler; solve_footprint ].
  - eapply footprint_calls_le. by apply handler_footprint_try.
Qed.

Lemma sqs_requests_budget rs :
  sum_list (map (fun r => if routed_to_sqs r then 1 else 0) rs) = sqs_requests rs.
Proof.
  induction rs as [|r rs IH]; [done|]. unfold sqs_requests in *. simpl.
  destruct (routed_to_sqs r); simpl; lia.
Qed.

Section Requests.
Context {W : Type} `{Backend W}.

(** C6: however the requests interleave, the controllers make at most
    one CreateQueue call per request routed to an SQS handler (and none
    for the other requests). *)
Theorem create_queue_at_most_per_sqs_request (rs : list http_request) h w cfg :
  rtc step (mkConfig (map serve_request rs) h w []) cfg ->
  count_calls is_create_queue (c_log cfg) <= sqs_requests rs.
Proof.
  intros Hr. apply (within_budget_count is_create_queue).
  eapply within_budget_rtc; [|exact Hr].
  exists (map (fun r => if routed_to_sqs r then 1 else 0) rs). simpl.
  rewrite sqs_requests_budget. split; [|done].
  apply Forall2_fmap, Forall_Forall2_diag, Forall_forall. intros r _. apply serve_calls_le.
Qed.
End Requests.

(** ** The race on the queue cache *)

(** Two [POST /sqs/send] requests. *)
Definition send_pair (c1 c2 : Request) : list http_request :=
  [("POST", "/sqs/send", c1); ("POST", "/sqs/send", c2)].

Section Race.
Context {W : Type} `{Backend W}.

(** C5: two concurrent [POST /sqs/send] requests on the fresh controllers
    can both find the cache empty and both call CreateQueue: for every
    backend there is a complete execution (both handlers finished) with
    two CreateQueue calls.  The bound of
    [create_queue_at_most_per_sqs_request] is reached, and the
    specification's exactly-once provisioning under concurrent callers
    does not hold: the guard is a check-then-act on an unlocked field. *)
Theorem concurrent_sends_create_queue_twice c1 c2 w :
  exists cfg, rtc step (mkConfig (map serve_request (send_pair c1 c2)) initial_heap w []) cfg /\
    Forall (fun p => finished p = true) (threads cfg) /\
    count_calls is_create_queue (c_log cfg) = 2.
Proof.
  eexists. split.
  - (* both read the empty cache, then both run setupQueue up to CreateQueue *)
    eapply rtc_l. { apply (step_load 0). reflexivity. }
    eapply rtc_l. { apply (step_load 1). reflexivity. }
    eapply rtc_l. { apply (step_load 0). reflexivity. }
    eapply rtc_l. { apply (step_call 0). reflexivity. }
    eapply rtc_l. { apply (step_load 1). reflexivity. }
    eapply rtc_l. { apply (step_call 1). reflexivity. }
    (* then each finishes alone *)
    eapply rtc_trans. { eapply (run_steps _ _ 0). reflexivity. }
    eapply rtc_trans. { eapply (run_steps _ _ 1). reflexivity. }
    apply rtc_refl.
  - cbn [threads c_log]. split.
    + repeat constructor; by destruct (f_out _).
    + rewrite !count_calls_app.
      rewrite !(footprint_no_calls is_create_queue (fun _ => false)); [reflexivity|..].
      all: unfold send_message_rest, check, json_error, JSON; solve_footprint.
Qed.
End Race.

(** ** The resource names *)

Definition is_name_field (f : field) : bool :=
  match f with QueueName | TopicName => true | _ => false end.

(** A creation call names the resource [qn] or [tn]. *)
Definition call_named (qn tn : string) (c : call) : bool :=
  match c with
  | CreateQueue n => String.eqb n qn
  | CreateTopic n => String.eqb n tn
  | _ => true
  end.

(** What a read of [f] can return while the names are [qn] and [tn]. *)
Definition load_consistent (qn tn : string) (f : field) (v : string) : Prop :=
  match f with QueueName => v = qn | TopicName => v = tn | _ => True end.

(** [named qn tn p]: while the name fields hold [qn] and [tn], [p] creates
    queues and topics only under these names and never writes the name
    fields. *)
Inductive named {R} (qn tn : string) : prog R -> Prop :=
| nm_ret r : named qn tn (Ret r)
| nm_panic m : named qn tn (Panic m)
| nm_call c k :
    call_named qn tn c = true -> (forall x, named qn tn (k x)) -> named qn tn (Call c k)
| nm_load f k :
    (forall v, load_consistent qn tn f v -> named qn tn (k v)) -> named qn tn (Load f k)
| nm_store f v k : is_name_field f = false -> named qn tn k -> named qn tn (Store f v k).

Lemma named_bind {R S} qn tn (p : prog R) (f : R -> prog S) :
  named qn tn p -> (forall x, named qn tn (f x)) -> named qn tn (bind p f).
Proof. intros Hp Hf. induction Hp; simpl; [auto|constructor; auto..]. Qed.

Lemma named_mapM {A B} qn tn (f : A -> prog B) (l : list A) :
  (forall x, named qn tn (f x)) -> named qn tn (mapM f l).
Proof.
  intros Hf. induction l as [|x l IH]; simpl; [constructor|].
  apply named_bind; [auto|]. intros y. apply named_bind; [auto|]. constructor.
Qed.

Lemma setupQueue_named qn tn : named qn tn setupQueue.
Proof.
  unfold setupQueue, read_field, sdk. simpl. constructor. intros v ->.
  constructor; [apply String.eqb_refl|]. intros [[u|]|e]; simpl; repeat constructor.
Qed.

Lemma setupTopic_named qn tn : named qn tn setupTopic.
Proof.
  unfold setupTopic, read_field, sdk. simpl. constructor. intros v ->.
  constructor; [apply String.eqb_refl|]. intros [[a|]|e]; simpl; repeat constructor;
    intros; case_match; constructor.
Qed.

(** One step of a [named] proof that follows the program's structure. *)
Ltac solve_named_step :=
  first
    [ apply named_bind | apply named_mapM
    | apply nm_ret | apply nm_panic
    | apply nm_call; [done|]
    | apply nm_load; intros ?v ?Hv
    | apply nm_store; [done|]
    | progress intros
    | progress case_match
    | progress (unfold sdk, read_field, write_field, deref) ].

Lemma poll_state_named qn tn name n prev : named qn tn (poll_state name n prev).
Proof.
  revert prev. induction n as [|n IH]; intros prev; simpl;
    repeat first [apply IH | solve_named_step].
Qed.

Ltac solve_named :=
  repeat first
    [ apply setupQueue_named | apply setupTopic_named | apply poll_state_named
    | solve_named_step ].

Lemma handler_named qn tn hd c : named qn tn (handler_prog hd c).
Proof.
  destruct hd; simpl;
    unfold UploadFile, setupBucket, SendMessageHandler, ReceiveMessageHandler, ensure_queue,
      send_message_rest, receive_message_rest, PublishMessage, SubscribeHandler,
      ListSubscriptions, ensure_topic, publish_message_rest, subscribe_rest,
      list_subscriptions_rest, CreateAPI, ListAPIs, CreateFunctionHandler, ListFunctionsHandler,
      InvokeFunction, after_poll, CreateUser, GetUser, UpdateUser, DeleteUser, ListUsers,
      with_table, setupTable, user_of_item, attr_S, check, json_error, JSON;
    solve_named.
Qed.

Section Names.
Context {W : Type} `{Backend W}.
Variables qn tn : string.

(** The name fields hold [qn] and [tn], every thread respects them, and
    every creation call made so far used them. *)
Definition names_inv (cfg : config W) : Prop :=
  queue_name (c_heap cfg) = qn /\ topic_name (c_heap cfg) = tn /\
  Forall (named qn tn) (threads cfg) /\
  Forall (fun e => call_named qn tn (projT1 e) = true) (c_log cfg).

Lemma named_load_consistent f h :
  queue_name h = qn -> topic_name h = tn -> load_consistent qn tn f (load f h).
Proof. intros Hq Ht. by destruct f. Qed.

Lemma names_inv_step cfg cfg' : names_inv cfg -> step cfg cfg' -> names_inv cfg'.
Proof.
  intros (Hq & Ht & Hts & Hl) Hs.
  destruct Hs as [i c k ts h w l Hi|i f k ts h w l Hi|i f v k ts h w l Hi]; simpl in *;
    pose proof (Forall_lookup_1 _ _ _ _ Hts Hi) as Hp; inversion Hp; subst.
  - match goal with E : existT _ _ = existT _ _ |- _ =>
      apply (Eqdep_dec.inj_pair2_eq_dec _ call_eq_dec) in E end. subst.
    cbn [threads c_heap c_log]. split_and!; [done|done|by apply Forall_insert|].
    apply Forall_app; split; [done|]. by apply Forall_singleton.
  - cbn [threads c_heap c_log]. split_and!; [done|done| |done].
    apply Forall_insert; [done|]. auto using named_load_consistent.
  - cbn [threads c_heap c_log]. split_and!; [..|by apply Forall_insert|done];
      destruct f; simpl in *; try discriminate; done.
Qed.

Lemma names_inv_rtc cfg cfg' : names_inv cfg -> rtc step cfg cfg' -> names_inv cfg'.
Proof. intros Hn Hr. induction Hr; eauto using names_inv_step. Qed.

Lemma names_inv_calls cfg n :
  names_inv cfg ->
  (In (CreateQueue n) (calls_of (c_log cfg)) -> n = qn) /\
  (In (CreateTopic n) (calls_of (c_log cfg)) -> n = tn).
Proof.
  intros (_ & _ & _ & Hl). unfold calls_of.
  split; intros Hin; apply in_map_iff in Hin as ([c x] & Hc & Hin); simpl in Hc; subst c;
    apply (proj1 (List.Forall_forall _ _) Hl) in Hin; by apply String.eqb_eq.
Qed.
End Names.

(** C15: in every interleaving of routed requests on the controllers of
    [SetupRoutes], the queue and topic names never change, and every
    CreateQueue and CreateTopic call is for "demo-queue" and "demo-topic":
    the racing setups of [concurrent_sends_create_queue_twice] all create
    the same named resource, which the backend's creation-by-name makes
    idempotent. *)
Theorem provisioning_names_fixed {W} `{Backend W} (rs : list http_request) w cfg :
  rtc step (mkConfig (map serve_request rs) initial_heap w []) cfg ->
  queue_name (c_heap cfg) = "demo-queue" /\ topic_name (c_heap cfg) = "demo-topic" /\
  forall n, (In (CreateQueue n) (calls_of (c_log cfg)) -> n = "demo-queue") /\
            (In (CreateTopic n) (calls_of (c_log cfg)) -> n = "demo-topic").
Proof.
  intros Hr. assert (Hn : names_inv "demo-queue" "demo-topic" cfg).
  { eapply names_inv_rtc; [|exact Hr]. split_and!; try done.
    apply List.Forall_forall. intros p Hp. apply in_map_iff in Hp as ([[m pt] c] & <- & _).
    unfold serve_request, serve. case_match; [case_match|constructor]. apply handler_named. }
  destruct Hn as (Hq & Ht & Hrest). split_and!; [done|done|].
  intros n. by apply names_inv_calls.
Qed.

(** ** Scenarios *)

Lemma create_queue_at_most_per_sqs_request_witness :
  let B := oracle_backend (queue_script (Ok (Some "http://localhost:4566/q/demo-queue"))) in
  let rs := send_pair (message_request "a") (message_request "b") in
  exists cfg, @rtc (config nat) (@step nat B) (mkConfig (map serve_request rs) initial_heap 0 []) cfg /\
    count_calls is_create_queue (c_log cfg) <= sqs_requests rs.
Proof.
  intros B rs.
  refine ((fun cfg (Hr : @rtc (config nat) (@step nat B)
                           (mkConfig (map serve_request rs) initial_heap 0 []) cfg) =>
             ex_intro _ cfg (conj Hr (@create_queue_at_most_per_sqs_request nat B rs _ _ cfg Hr))) _ _).
  eapply rtc_trans; [eapply (run_steps _ _ 0); reflexivity|].
  eapply rtc_trans; [eapply (run_steps _ _ 1); reflexivity|].
  apply rtc_refl.
Defined.

Lemma provisioning_names_fixed_witness :
  let B := oracle_backend (queue_script (Ok (Some "http://localhost:4566/q/demo-queue"))) in
  let rs := [("POST", "/sqs/send", message_request "a"); ("POST", "/sns/publish", publish_request)] in
  exists cfg, @rtc (config nat) (@step nat B) (mkConfig (map serve_request rs) initial_heap 0 []) cfg /\
    queue_name (c_heap cfg) = "demo-queue" /\ topic_name (c_heap cfg) = "demo-topic" /\
    forall n, (In (CreateQueue n) (calls_of (c_log cfg)) -> n = "demo-queue") /\
              (In (CreateTopic n) (calls_of (c_log cfg)) -> n = "demo-topic").
Proof.
  intros B rs.
  refine ((fun cfg (Hr : @rtc (config nat) (@step nat B)
                           (mkConfig (map serve_request rs) initial_heap 0 []) cfg) =>
             ex_intro _ cfg (conj Hr (@provisioning_names_fixed nat B rs 0 cfg Hr))) _ _).
  eapply rtc_trans; [eapply (run_steps _ _ 0); reflexivity|].
  eapply rtc_trans; [eapply (run_steps _ _ 1); reflexivity|].
  apply rtc_refl.
Defined.
