(* ===== verification/Emulator.v ===== *)
(** * A model of the LocalStack emulator behind the SDK (S3, SQS, SNS)

    The controllers are verified against every [Backend]; this file gives
    one concrete backend, a model of what LocalStack (the emulator the
    program targets, account 000000000000, region sa-east-1) does for the
    S3, SQS and SNS calls, following the AWS API reference:

    - CreateBucket fails with BucketAlreadyOwnedByYou when the caller
      already owns the bucket (outside us-east-1); the SDK's error text
      wraps the code in "operation error S3: CreateBucket, ...";
    - CreateQueue and CreateTopic are idempotent by name: the same name
      gives the same queue URL or topic ARN;
    - a received message stays in the queue, invisible, until DeleteMessage
      is called with its receipt handle (the visibility timeout is taken to
      be longer than any request);
    - Subscribe with the protocol and endpoint of an existing subscription
      returns it instead of adding one.

    Calls of the other services get [default_reply].  It is a model of the
    environment, not of the program: the end-to-end theorems that use it
    say what the program does on this emulator. *)

From stdpp Require Import gmap pretty.
From S2P Require Import Prelude Sdk.

Record sqs_message := mkMsg { m_receipt : string; m_body : string; m_visible : bool }.
Record sns_subscription := mkSub { s_protocol : string; s_endpoint : string; s_arn : string }.

Record Emulator := mkEmulator {
  em_next : N;                                      (** the next fresh identifier *)
  em_buckets : gmap string (gmap string string);    (** bucket -> key -> body *)
  em_queues : gmap string (list sqs_message);       (** queue URL -> messages *)
  em_topics : gmap string (list sns_subscription);  (** topic ARN -> subscriptions *)
  em_published : list (string * string * string) }. (** (ARN, message, subject) *)

Definition emulator0 : Emulator := mkEmulator 0 ∅ ∅ ∅ [].

Definition account_id : string := "000000000000".

Definition queue_url_of (name : string) : string :=
  "http://localhost:4566/" +:+ account_id +:+ "/" +:+ name.

Definition topic_arn_of (name : string) : string :=
  "arn:aws:sns:sa-east-1:" +:+ account_id +:+ ":" +:+ name.

(** The text of the SDK error for an owned bucket. *)
Definition bucket_owned_error : string :=
  "operation error S3: CreateBucket, https response error StatusCode: 409, "
  +:+ "api error BucketAlreadyOwnedByYou: Your previous request to create the "
  +:+ "named bucket succeeded and you already own it.".

Definition no_such_bucket : string := "api error NoSuchBucket: The specified bucket does not exist".
Definition no_such_queue : string :=
  "api error AWS.SimpleQueueService.NonExistentQueue: The specified queue does not exist.".
Definition no_such_topic : string := "api error NotFound: Topic does not exist".
Definition missing_receipt : string := "api error MissingParameter: ReceiptHandle".

(** ** State updates *)

Definition set_buckets (b : gmap string (gmap string string)) (s : Emulator) : Emulator :=
  mkEmulator (em_next s) b (em_queues s) (em_topics s) (em_published s).
Definition set_queues (q : gmap string (list sqs_message)) (s : Emulator) : Emulator :=
  mkEmulator (em_next s) (em_buckets s) q (em_topics s) (em_published s).
Definition set_topics (t : gmap string (list sns_subscription)) (s : Emulator) : Emulator :=
  mkEmulator (em_next s) (em_buckets s) (em_queues s) t (em_published s).
Definition set_published (p : list (string * string * string)) (s : Emulator) : Emulator :=
  mkEmulator (em_next s) (em_buckets s) (em_queues s) (em_topics s) p.
Definition bump (s : Emulator) : Emulator :=
  mkEmulator (em_next s + 1) (em_buckets s) (em_queues s) (em_topics s) (em_published s).

(** A fresh identifier with a prefix. *)
Definition fresh_id (prefix : string) (s : Emulator) : string := prefix +:+ pretty (em_next s).

(** ReceiveMessage: up to [n] visible messages, oldest first, which become
    invisible. *)
Fixpoint receive (n : nat) (ms : list sqs_message) : list sqs_message * list sqs_message :=
  match n, ms with
  | O, _ | _, [] => ([], ms)
  | S n', m :: rest =>
      if m_visible m then
        let '(got, rest') := receive n' rest in
        (m :: got, mkMsg (m_receipt m) (m_body m) false :: rest')
      else
        let '(got, rest') := receive n rest in (got, m :: rest')
  end.

Definition to_Message (m : sqs_message) : Message :=
  {| ReceiptHandle := Some (m_receipt m); Body := Some (m_body m) |}.

Definition to_Subscription (sb : sns_subscription) : Subscription :=
  {| sub_Endpoint := Some (s_endpoint sb); sub_Protocol := Some (s_protocol sb);
     sub_SubscriptionArn := Some (s_arn sb) |}.

Definition same_subscription (p e : string) (sb : sns_subscription) : bool :=
  String.eqb (s_protocol sb) p && String.eqb (s_endpoint sb) e.

(** ** The calls *)

Definition emulate (s : Emulator) (c : call) : Emulator * reply_of c :=
  match c as c0 return Emulator * reply_of c0 with
  | LoadDefaultConfig _ _ _ _ _ => (s, Ok tt)
  | CreateBucket b _ =>
      match em_buckets s !! b with
      | Some _ => (s, Err bucket_owned_error)
      | None => (set_buckets (<[b := ∅]> (em_buckets s)) s, Ok tt)
      end
  | PutObject b k body =>
      match em_buckets s !! b with
      | Some objs => (set_buckets (<[b := <[k := body]> objs]> (em_buckets s)) s, Ok tt)
      | None => (s, Err no_such_bucket)
      end
  | CreateQueue n =>
      let u := queue_url_of n in
      match em_queues s !! u with
      | Some _ => (s, Ok (Some u))
      | None => (set_queues (<[u := []]> (em_queues s)) s, Ok (Some u))
      end
  | SendMessage u body =>
      match em_queues s !! u with
      | Some ms =>
          let m := mkMsg (fresh_id "rh-" s) body true in
          (bump (set_queues (<[u := ms ++ [m]]> (em_queues s)) s), Ok tt)
      | None => (s, Err no_such_queue)
      end
  | ReceiveMessage u n _ =>
      match em_queues s !! u with
      | Some ms =>
          let '(got, ms') := receive (Z.to_nat n) ms in
          (set_queues (<[u := ms']> (em_queues s)) s, Ok (map to_Message got))
      | None => (s, Err no_such_queue)
      end
  | DeleteMessage u r =>
      match em_queues s !! u, r with
      | Some ms, Some rh =>
          (set_queues (<[u := List.filter (fun m => negb (String.eqb (m_receipt m) rh)) ms]>
                         (em_queues s)) s, Ok tt)
      | Some _, None => (s, Err missing_receipt)
      | None, _ => (s, Err no_such_queue)
      end
  | CreateTopic n =>
      let a := topic_arn_of n in
      match em_topics s !! a with
      | Some _ => (s, Ok (Some a))
      | None => (set_topics (<[a := []]> (em_topics s)) s, Ok (Some a))
      end
  | Subscribe a p e =>
      match em_topics s !! a with
      | Some subs =>
          if List.existsb (same_subscription p e) subs then (s, Ok tt)
          else
            let sb := mkSub p e (a +:+ ":" +:+ fresh_id "sub-" s) in
            (bump (set_topics (<[a := subs ++ [sb]]> (em_topics s)) s), Ok tt)
      | None => (s, Err no_such_topic)
      end
  | Publish a msg subj =>
      match em_topics s !! a with
      | Some _ => (set_published (em_published s ++ [(a, msg, subj)]) s, Ok tt)
      | None => (s, Err no_such_topic)
      end
  | ListSubscriptionsByTopic a =>
      match em_topics s !! a with
      | Some subs => (s, Ok (map to_Subscription subs))
      | None => (s, Err no_such_topic)
      end
  | Sleep _ => (s, tt)
  | c0 => (s, default_reply c0)
  end.

#[export] Instance emulator_backend : Backend Emulator := emulate.
