(* ===== verification/EndToEnd.v ===== *)
(** * End-to-end behaviour on the emulator

    Requests served one after the other by the router of [Routes], the
    controllers of [SetupRoutes] and the emulator model of [Emulator]: what
    a client of the gateway observes.

    Proved here: a message sent through [/sqs/send] comes back from the
    next [/sqs/receive], which deletes it: the router, the setup guard,
    the send, the receive and the deletion by receipt handle fit
    together. *)

From stdpp Require Import gmap.
From S2P Require Import Prelude Sdk Prog Gin Sqs Routes Concurrency Emulator.

Section Serve.
Context {W : Type} `{Backend W}.

(** The responses to a sequence of requests served one at a time (gin's
    Recovery turning panics into bare 500s), with the fields and the
    backend state they leave. *)
Fixpoint serve_all (rs : list http_request) (h : Heap) (w : W) : list Response * Heap * W :=
  match rs with
  | [] => ([], h, w)
  | r :: rest =>
      let fr := run (serve_request r) h w in
      let '(out, h', w') := serve_all rest (f_heap fr) (f_world fr) in
      (recovery (f_out fr) :: out, h', w')
  end.
End Serve.

(** [c.JSON(200, gin.H{"message": msg})]. *)
Definition message_response (msg : string) : Response :=
  {| status := StatusOK; body := Some (H [("message", JStr msg)]) |}.

Definition receive_request : http_request := ("GET", "/sqs/receive", empty_request).
Definition send_request (m : string) : http_request := ("POST", "/sqs/send", message_request m).

(** C22: on a fresh gateway and emulator, a non-empty message sent through
    [POST /sqs/send] is answered 200, the next [GET /sqs/receive] returns
    it, and the queue is left empty (the handler deleted it). *)
Theorem sqs_send_receive_roundtrip m :
  m <> "" ->
  let '(out, h, s) := serve_all [send_request m; receive_request] initial_heap emulator0 in
  out = [message_response "Mensagem enviada com sucesso"; message_response m] /\
  em_queues s !! queue_url_of "demo-queue" = Some [].
Proof. intros Hm. destruct m as [|a m']; [done|]. vm_compute. auto. Qed.

Lemma sqs_send_receive_roundtrip_witness :
  "hello" <> "" /\
  let '(out, h, s) := serve_all [send_request "hello"; receive_request] initial_heap emulator0 in
  out = [message_response "Mensagem enviada com sucesso"; message_response "hello"] /\
  em_queues s !! queue_url_of "demo-queue" = Some [].
Proof. split; [discriminate|]. exact (sqs_send_receive_roundtrip "hello" ltac:(discriminate)). Defined.
